(** * Healcard dashboard helpers: [static/js/main.js]

    A shallow embedding of the browser-side helpers of the dashboard
    (alert auto-dismiss, navigation shortcuts, appointment cancellation and
    bulk deletion by date) together with the part of the browser they talk
    to: the DOM, the modal dialogs, [fetch] and its promise chain, the
    console, the timer queue of the event loop.

    Every function of the script is a computation in the monad [M], which
    threads the page ([world]), reads the user and the server from an
    environment ([env]), may throw, and writes down the effects the page
    can observe ([effect]). *)

From Stdlib Require Import Ascii NArith ZArith DecimalString Lia.
From stdpp Require Import base list strings.

Set Warnings "-register-all".

(** ** Strings *)

(** [String.prototype.includes], used to state that an alert text carries
    the message of the server. *)
Fixpoint includes (needle hay : string) : bool :=
  String.prefix needle hay ||
  match hay with
  | EmptyString => false
  | String _ rest => includes needle rest
  end.

(** Number of occurrences of a character; counts the separators of a
    form-encoded body. *)
Fixpoint occurrences (c : Ascii.ascii) (s : string) : nat :=
  match s with
  | EmptyString => 0
  | String d rest => (if Ascii.eqb c d then 1 else 0) + occurrences c rest
  end.

(** ** Errors and completions *)

(** The error objects of the platform: a name and a message. *)
Record js_error := { err_name : string; err_message : string }.

Definition TypeError (msg : string) : js_error :=
  {| err_name := "TypeError"; err_message := msg |}.

(** How the evaluation of a piece of script ends. *)
Inductive completion (A : Type) : Type :=
| Normal (a : A)
| Throw (e : js_error).
Arguments Normal {A} a.
Arguments Throw {A} e.

(** What becomes of a promise: it is fulfilled, it is rejected, or it
    stays pending for ever (a request that never completes). Each chain of
    the script is built in one expression, and its handlers run in the
    order of the chain once the request has settled. *)
Inductive promise (A : Type) : Type :=
| Fulfilled (a : A)
| Rejected (reason : js_error)
| Pending.
Arguments Fulfilled {A} a.
Arguments Rejected {A} reason.
Arguments Pending {A}.

(** ** The document *)

(** Where a node hangs: nowhere, directly under the document, or under
    another node of the store. *)
Inductive parent_ref : Type :=
| Detached
| UnderDocument
| ChildOf (i : nat).

(** A node of the page. [node_value] is the [value] property, which only
    form controls have. *)
Record node := {
  node_id : string;
  node_classes : list string;
  node_value : option string;
  node_parent : parent_ref
}.

(** The store of nodes, in tree order. A node is known by its position in
    the store, which never changes: removing a node detaches it and keeps
    its slot. *)
Abbreviation dom := (list node).

(** [is_connected fuel d i]: the parent chain of node [i] reaches the
    document within [fuel] steps. *)
Fixpoint is_connected (fuel : nat) (d : dom) (i : nat) : bool :=
  match fuel with
  | O => false
  | S fuel' =>
      match d !! i with
      | None => false
      | Some n =>
          match node_parent n with
          | Detached => false
          | UnderDocument => true
          | ChildOf p => is_connected fuel' d p
          end
      end
  end.

(** A chain without a cycle is no longer than the store. *)
Definition in_document (d : dom) (i : nat) : bool :=
  is_connected (length d) d i.

Definition has_class (c : string) (n : node) : bool :=
  bool_decide (c ∈ node_classes n).

(** The selectors the script uses are lists of class selectors:
    ['.alert-success, .alert-danger'] is [[ "alert-success"; "alert-danger" ]]. *)
Definition matches (selector : list string) (n : node) : bool :=
  existsb (fun c => has_class c n) selector.

(** Positions [from], [from+1], ... of the nodes of [l] that satisfy [p]. *)
Fixpoint positions (p : nat -> node -> bool) (from : nat) (l : list node) : list nat :=
  match l with
  | [] => []
  | n :: rest =>
      if p from n then from :: positions p (S from) rest
      else positions p (S from) rest
  end.

Definition select_all (selector : list string) (d : dom) : list nat :=
  positions (fun i n => in_document d i && matches selector n) 0 d.

Definition element_by_id (id : string) (d : dom) : option nat :=
  head (positions (fun i n => in_document d i && bool_decide (node_id n = id)) 0 d).

(** The element [document.getElementById id] finds has the value [v]. *)
Definition field_holds (id : string) (d : dom) (v : string) : Prop :=
  exists i n, element_by_id id d = Some i /\ d !! i = Some n /\ node_value n = Some v.

(** [DOMTokenList.add]: a token that is present is not added again. *)
Definition add_class (c : string) (n : node) : node :=
  {| node_id := node_id n;
     node_classes := if has_class c n then node_classes n else node_classes n ++ [c];
     node_value := node_value n;
     node_parent := node_parent n |}.

(** [ChildNode.remove]. *)
Definition detach (n : node) : node :=
  {| node_id := node_id n;
     node_classes := node_classes n;
     node_value := node_value n;
     node_parent := Detached |}.

(** [ancestor d i j]: node [i] is on the parent chain of node [j]. *)
Inductive ancestor (d : dom) (i : nat) : nat -> Prop :=
| ancestor_parent (j : nat) (n : node) :
    d !! j = Some n -> node_parent n = ChildOf i -> ancestor d i j
| ancestor_further (j p : nat) (n : node) :
    d !! j = Some n -> node_parent n = ChildOf p -> ancestor d i p -> ancestor d i j.

(** The store after [f] has been applied to the nodes [ks], one by one. *)
Definition alter_all (f : node -> node) (ks : list nat) (d : dom) : dom :=
  foldl (fun d k => alter f k d) d ks.

(** ** Timers *)

(** The two closures [autoDismissAlerts] hands to [setTimeout], each with
    the alert element it captures: the outer one (lines 5-10) and the inner
    one (lines 7-9). *)
Inductive task : Type :=
| FadeOut (alert : nat)
| RemoveAlert (alert : nat).

(** ** The page *)

Record world := {
  w_dom : dom;
  w_href : string;
  w_now : N;
  w_timers : list (N * task)
}.

(** The argument of a submit handler. *)
Record dom_event := { ev_type : string; ev_cancelable : bool }.

(** The second argument of [fetch]. *)
Record request_init := {
  init_method : string;
  init_headers : list (string * string);
  init_body : option string
}.

Section Script.

(** JSON numbers are IEEE doubles. The script never computes with one: it
    can only test one for truth and print one, so both are taken from the
    platform. *)
Variable number : Type.
Variable number_to_boolean : number -> bool.
Variable number_to_string : number -> string.

(** ** Values *)

(** The values [JSON.parse] builds, and [undefined]. An object is the list
    of its own properties. *)
Inductive value : Type :=
| VUndefined
| VNull
| VBool (b : bool)
| VNumber (n : number)
| VString (s : string)
| VArray (items : list value)
| VObject (props : list (string * value)).

(** [ToBoolean]. *)
Definition to_boolean (v : value) : bool :=
  match v with
  | VUndefined | VNull => false
  | VBool b => b
  | VNumber n => number_to_boolean n
  | VString s => negb (bool_decide (s = ""))
  | VArray _ | VObject _ => true
  end.

Fixpoint own_property (key : string) (props : list (string * value)) : option value :=
  match props with
  | [] => None
  | (k, v) :: rest => if bool_decide (k = key) then Some v else own_property key rest
  end.

(** [ToString], as template literals, [alert] and [+] with a string
    operand apply it. An array prints as its elements joined by commas,
    [null] and [undefined] elements as nothing. An object prints through
    its [toString] method: the inherited one gives ["[object Object]"]; an
    own property [toString], which in a value built from JSON is never a
    function, hides it, and then no method yields a primitive ([valueOf],
    own or inherited, does not either) and the conversion throws. *)
Fixpoint to_string (v : value) : completion string :=
  match v with
  | VUndefined => Normal "undefined"
  | VNull => Normal "null"
  | VBool true => Normal "true"
  | VBool false => Normal "false"
  | VNumber n => Normal (number_to_string n)
  | VString s => Normal s
  | VArray items =>
      (fix join (l : list value) : completion string :=
         match l with
         | [] => Normal ""
         | x :: rest =>
             match match x with
                   | VUndefined | VNull => Normal ""
                   | _ => to_string x
                   end with
             | Throw e => Throw e
             | Normal this =>
                 match rest with
                 | [] => Normal this
                 | _ :: _ =>
                     match join rest with
                     | Throw e => Throw e
                     | Normal others => Normal (this +:+ "," +:+ others)
                     end
                 end
             end
         end) items
  | VObject props =>
      match own_property "toString" props with
      | Some _ => Throw (TypeError "Cannot convert object to primitive value")
      | None => Normal "[object Object]"
      end
  end.

(** [v.key], for the keys the script reads ([success], [message]), which no
    built-in prototype defines: reading from [null] or [undefined] throws,
    a primitive or an array has no such property. *)
Definition get (v : value) (key : string) : completion value :=
  match v with
  | VUndefined =>
      Throw (TypeError ("Cannot read properties of undefined (reading '" +:+ key +:+ "')"))
  | VNull =>
      Throw (TypeError ("Cannot read properties of null (reading '" +:+ key +:+ "')"))
  | VObject props =>
      Normal (match own_property key props with
              | Some x => x
              | None => VUndefined
              end)
  | VBool _ | VNumber _ | VString _ | VArray _ => Normal VUndefined
  end.

(** ** Environment and observable effects *)

(** A response, as far as the script looks at it: what becomes of
    [response.json()]. A body that is not JSON rejects. *)
Record response := { json : promise value }.

(** The user answers confirmation prompts, the network decides what
    becomes of a request. *)
Record env := {
  user_confirms : string -> bool;
  network : string -> request_init -> promise response
}.

Inductive console_arg : Type :=
| LogValue (v : value)
| LogError (e : js_error).

Inductive effect : Type :=
| Confirm (text : string) (answer : bool)
| Alert (text : string)
| Fetch (url : string) (init : request_init)
| ConsoleError (args : list console_arg)
| ConsoleLog (args : list console_arg)
| Reload
| PreventDefault (ev : dom_event)
| UnhandledRejection (reason : js_error)
| UncaughtError (e : js_error).

(** ** The monad of script computations *)

Definition M (A : Type) : Type :=
  env -> world -> completion A * world * list effect.

Definition outcome_of {A} (r : completion A * world * list effect) : completion A := r.1.1.
Definition effects_of {A} (r : completion A * world * list effect) : list effect := r.2.
Definition page_of {A} (r : completion A * world * list effect) : world := r.1.2.

Definition ret {A} (a : A) : M A := fun _ w => (Normal a, w, []).

Definition bind {A B} (m : M A) (k : A -> M B) : M B :=
  fun e w =>
    match m e w with
    | (Normal a, w1, t1) =>
        match k a e w1 with
        | (r, w2, t2) => (r, w2, t1 ++ t2)
        end
    | (Throw x, w1, t1) => (Throw x, w1, t1)
    end.

Notation "x <- m ;; k" := (bind m (fun x => k))
  (at level 100, m at next level, right associativity).
Notation "m ;;; k" := (bind m (fun _ => k))
  (at level 100, right associativity).

Definition throw {A} (x : js_error) : M A := fun _ w => (Throw x, w, []).
Definition emit (ev : effect) : M unit := fun _ w => (Normal tt, w, [ev]).
Definition lift {A} (c : completion A) : M A :=
  match c with
  | Normal a => ret a
  | Throw x => throw x
  end.
Definition get_world : M world := fun _ w => (Normal w, w, []).
Definition put_world (w : world) : M unit := fun _ _ => (Normal tt, w, []).

Definition set_dom (d : dom) (w : world) : world :=
  {| w_dom := d; w_href := w_href w; w_now := w_now w; w_timers := w_timers w |}.
Definition set_href (h : string) (w : world) : world :=
  {| w_dom := w_dom w; w_href := h; w_now := w_now w; w_timers := w_timers w |}.
Definition set_now (t : N) (w : world) : world :=
  {| w_dom := w_dom w; w_href := w_href w; w_now := t; w_timers := w_timers w |}.
Definition set_timers (ts : list (N * task)) (w : world) : world :=
  {| w_dom := w_dom w; w_href := w_href w; w_now := w_now w; w_timers := ts |}.

(** ** The browser interface *)

Definition confirm (text : string) : M bool :=
  fun e w => let answer := user_confirms e text in
             (Normal answer, w, [Confirm text answer]).

Definition alert (text : string) : M unit := emit (Alert text).
Definition console_error (args : list console_arg) : M unit := emit (ConsoleError args).
Definition console_log (args : list console_arg) : M unit := emit (ConsoleLog args).
(** [location.reload()] is written down as an effect. The page the browser
    then loads is not modelled: what is stated of the page after a call
    concerns the paths without a reload. *)
Definition location_reload : M unit := emit Reload.
Definition preventDefault (ev : dom_event) : M unit := emit (PreventDefault ev).

(** [window.location.href = h]. *)
Definition location_assign (h : string) : M unit :=
  w <- get_world ;; put_world (set_href h w).

(** [fetch] hands the request to the network and returns its promise. *)
Definition fetch (url : string) (init : request_init) : M (promise response) :=
  fun e w => (Normal (network e url init), w, [Fetch url init]).

(** [p.then(h)]: a handler that throws rejects the new promise; the promise
    a handler returns is adopted; while [p] is pending the handler does not
    run. *)
Definition then_ {A B} (p : promise A) (h : A -> M (promise B)) : M (promise B) :=
  match p with
  | Fulfilled a =>
      fun e w =>
        match h a e w with
        | (Normal q, w1, t) => (Normal q, w1, t)
        | (Throw x, w1, t) => (Normal (Rejected x), w1, t)
        end
  | Rejected x => ret (Rejected x)
  | Pending => ret Pending
  end.

(** [p.catch(h)]. *)
Definition catch_ {A} (p : promise A) (h : js_error -> M (promise A)) : M (promise A) :=
  match p with
  | Fulfilled a => ret (Fulfilled a)
  | Rejected x =>
      fun e w =>
        match h x e w with
        | (Normal q, w1, t) => (Normal q, w1, t)
        | (Throw y, w1, t) => (Normal (Rejected y), w1, t)
        end
  | Pending => ret Pending
  end.

(** A handler that falls off its end resolves the promise with [undefined]. *)
Definition done_ : M (promise unit) := ret (Fulfilled tt).

(** A chain used as a statement: nobody holds the last promise, and the
    browser reports it when it is rejected. *)
Definition drop_promise {A} (p : promise A) : M unit :=
  match p with
  | Fulfilled _ | Pending => ret tt
  | Rejected x => emit (UnhandledRejection x)
  end.

Definition querySelectorAll (selector : list string) : M (list nat) :=
  w <- get_world ;; ret (select_all selector (w_dom w)).

Definition getElementById (id : string) : M (option nat) :=
  w <- get_world ;; ret (element_by_id id (w_dom w)).

(** [el.value], where [el] may be [null]. *)
Definition value_of (el : option nat) : M (option string) :=
  match el with
  | None => throw (TypeError "Cannot read properties of null (reading 'value')")
  | Some i =>
      w <- get_world ;;
      ret (match w_dom w !! i with
           | Some n => node_value n
           | None => None
           end)
  end.

Definition classList_add (el : nat) (c : string) : M unit :=
  w <- get_world ;; put_world (set_dom (alter (add_class c) el (w_dom w)) w).

Definition element_remove (el : nat) : M unit :=
  w <- get_world ;; put_world (set_dom (alter detach el (w_dom w)) w).

(** [setTimeout(cb, delay)]: the callback is due [delay] ms from now. *)
Definition setTimeout (cb : task) (delay : N) : M unit :=
  w <- get_world ;;
  put_world (set_timers (w_timers w ++ [((w_now w + delay)%N, cb)]) w).

Fixpoint forEach {A} (l : list A) (f : A -> M unit) : M unit :=
  match l with
  | [] => ret tt
  | x :: rest => f x ;;; forEach rest f
  end.

(** ** The script *)

Definition autoDismissAlerts : M unit :=
  alerts <- querySelectorAll ["alert-success"; "alert-danger"] ;;
  forEach alerts (fun alert => setTimeout (FadeOut alert) 1500).

(** The bodies of the two timer callbacks of [autoDismissAlerts]. *)
Definition run_task (t : task) : M unit :=
  match t with
  | FadeOut alert =>
      classList_add alert "alert-fade-out" ;;;
      setTimeout (RemoveAlert alert) 500
  | RemoveAlert alert =>
      element_remove alert
  end.

Definition showPatientsList : M unit :=
  location_assign "/doctor/patients".

Definition consultPatients : M unit :=
  location_assign "/doctor/notifications".

Definition cancelAppointment (appointmentId : value) : M unit :=
  ok <- confirm "Are you sure you want to cancel this appointment?" ;;
  if ok then
    id <- lift (to_string appointmentId) ;;
    p0 <- fetch ("/cancel_appointment/" +:+ id)
            {| init_method := "POST";
               init_headers := [("Content-Type", "application/json")];
               init_body := None |} ;;
    p1 <- then_ p0 (fun response => ret (json response)) ;;
    p2 <- then_ p1 (fun data =>
            success <- lift (get data "success") ;;
            if to_boolean success then
              alert "Appointment cancelled successfully" ;;;
              location_reload ;;;
              done_
            else
              message <- lift (get data "message") ;;
              text <- lift (to_string message) ;;
              alert ("Error cancelling appointment: " +:+ text) ;;;
              done_) ;;
    p3 <- catch_ p2 (fun error =>
            console_error [LogValue (VString "Error:"); LogError error] ;;;
            alert "Error cancelling appointment" ;;;
            done_) ;;
    drop_promise p3
  else
    ret tt.

Definition showAppointmentDetails (appointmentId : value) : M unit :=
  console_log [LogValue (VString "Show appointment details for:"); LogValue appointmentId].

Definition deleteAppointmentsByDate (event : dom_event) : M unit :=
  preventDefault event ;;;
  dateInput <- getElementById "deleteDate" ;;
  selectedDate <- value_of dateInput ;;
  match selectedDate with
  | None | Some "" =>
      alert "Please select a date"
  | Some selectedDate =>
      ok <- confirm ("Are you sure you want to delete all appointments for "
                     +:+ selectedDate +:+ "?") ;;
      if ok then
        p0 <- fetch "/delete_appointments_by_date"
                {| init_method := "POST";
                   init_headers := [("Content-Type", "application/x-www-form-urlencoded")];
                   init_body := Some ("date=" +:+ selectedDate) |} ;;
        p1 <- then_ p0 (fun response => ret (json response)) ;;
        p2 <- then_ p1 (fun data =>
                success <- lift (get data "success") ;;
                if to_boolean success then
                  message <- lift (get data "message") ;;
                  text <- lift (to_string message) ;;
                  alert text ;;;
                  location_reload ;;;
                  done_
                else
                  message <- lift (get data "message") ;;
                  text <- lift (to_string message) ;;
                  alert ("Error: " +:+ text) ;;;
                  done_) ;;
        p3 <- catch_ p2 (fun error =>
                console_error [LogValue (VString "Error:"); LogError error] ;;;
                alert "Error deleting appointments" ;;;
                done_) ;;
        drop_promise p3
      else
        ret tt
  end.

(** ** The event loop *)

(** The timer that fires next: the earliest due, and among those the one
    registered first; with it, the timers that stay. *)
Fixpoint pick_next (timers : list (N * task)) : option ((N * task) * list (N * task)) :=
  match timers with
  | [] => None
  | t :: rest =>
      match pick_next rest with
      | None => Some (t, [])
      | Some (m, rest') =>
          if (t.1 <=? m.1)%N then Some (t, rest) else Some (m, t :: rest')
      end
  end.

(** An exception that leaves a callback is reported, not propagated. *)
Definition report (r : completion unit) : list effect :=
  match r with
  | Normal _ => []
  | Throw x => [UncaughtError x]
  end.

(** [event_loop fuel deadline]: the page once every timer due at or before
    [deadline] has fired, each at the time it is due, with the effects of
    the callbacks. [fuel] bounds the number of callbacks; [None] when it
    runs out. *)
Fixpoint event_loop (fuel : nat) (deadline : N) (e : env) (w : world)
  : option (world * list effect) :=
  match pick_next (w_timers w) with
  | None => Some (set_now (N.max (w_now w) deadline) w, [])
  | Some ((due, cb), rest) =>
      if (deadline <? due)%N then Some (set_now (N.max (w_now w) deadline) w, [])
      else
        match fuel with
        | O => None
        | S fuel' =>
            match run_task cb e (set_now (N.max (w_now w) due) (set_timers rest w)) with
            | (r, w1, t1) =>
                match event_loop fuel' deadline e w1 with
                | Some (w2, t2) => Some (w2, t1 ++ report r ++ t2)
                | None => None
                end
            end
        end
  end.

(** ** Reading a run *)

Definition alerts_of (t : list effect) : list string :=
  omap (fun ev => match ev with Alert text => Some text | _ => None end) t.

Definition prompts_of (t : list effect) : list string :=
  omap (fun ev => match ev with Confirm text _ => Some text | _ => None end) t.

Definition requests_of (t : list effect) : list (string * request_init) :=
  omap (fun ev => match ev with Fetch url init => Some (url, init) | _ => None end) t.

Definition console_errors_of (t : list effect) : list (list console_arg) :=
  omap (fun ev => match ev with ConsoleError args => Some args | _ => None end) t.

Definition reloads_of (t : list effect) : nat :=
  length (omap (fun ev => match ev with Reload => Some tt | _ => None end) t).

Definition unhandled_of (t : list effect) : list js_error :=
  omap (fun ev => match ev with
                  | UnhandledRejection x | UncaughtError x => Some x
                  | _ => None
                  end) t.

(** ** A page, a user and a server *)

(** Numbers to run the script on: the integers, which print in decimal and
    are true when they are not zero. *)
Definition int_to_boolean (z : Z) : bool := negb (z =? 0)%Z.
Definition int_to_string (z : Z) : string := NilZero.string_of_int (Z.to_int z).

(** The notifications page: two flash alerts, the second with a close
    button inside, a heading, and the deletion form with its date input. *)
Definition notifications_page (date : string) : world :=
  {| w_dom :=
       [ {| node_id := "flash-ok"; node_classes := ["alert"; "alert-success"];
            node_value := None; node_parent := UnderDocument |};
         {| node_id := "flash-error"; node_classes := ["alert"; "alert-danger"];
            node_value := None; node_parent := UnderDocument |};
         {| node_id := ""; node_classes := ["btn-close"];
            node_value := None; node_parent := ChildOf 1 |};
         {| node_id := "title"; node_classes := ["page-title"];
            node_value := None; node_parent := UnderDocument |};
         {| node_id := "deleteForm"; node_classes := [];
            node_value := None; node_parent := UnderDocument |};
         {| node_id := "deleteDate"; node_classes := ["form-control"];
            node_value := Some date; node_parent := ChildOf 4 |} ];
     w_href := "/doctor/notifications";
     w_now := 0;
     w_timers := [] |}.

(** The dashboard: the same script, no deletion form. *)
Definition dashboard_page : world :=
  {| w_dom :=
       [ {| node_id := "title"; node_classes := ["page-title"];
            node_value := None; node_parent := UnderDocument |} ];
     w_href := "/doctor/dashboard";
     w_now := 0;
     w_timers := [] |}.

(** A page on which the id [deleteDate] is carried by an element that is
    not a form control, and so has no [value]. *)
Definition mislabelled_page : world :=
  {| w_dom :=
       [ {| node_id := "deleteDate"; node_classes := ["form-label"];
            node_value := None; node_parent := UnderDocument |} ];
     w_href := "/doctor/notifications";
     w_now := 0;
     w_timers := [] |}.

Definition submit : dom_event := {| ev_type := "submit"; ev_cancelable := true |}.

(** A user who answers every prompt the same way, and a network that
    settles every request the same way. *)
Definition scenario (answer : bool) (settles : promise response) : env :=
  {| user_confirms := fun _ => answer; network := fun _ _ => settles |}.

Definition answers (data : value) : promise response :=
  Fulfilled {| json := Fulfilled data |}.

Definition offline : promise response :=
  Rejected (TypeError "Failed to fetch").

Definition not_json : promise response :=
  Fulfilled {| json := Rejected {| err_name := "SyntaxError";
                                   err_message := "Unexpected token '<'" |} |}.

(** A request that is never answered. *)
Definition silent : promise response := Pending.

(** An identifier, or a message, that is an object with a [toString]
    property of its own. *)
Definition unprintable : value := VObject [("toString", VNull)].

Definition ok_data : value := VObject [("success", VBool true)].

Definition refused_data : value :=
  VObject [("success", VBool false); ("message", VString "Appointment not found")].

(** A request that does not deliver JSON: the network rejects it, or the
    body of the response does not parse. *)
Definition fails_with (e : env) (url : string) (init : request_init) (x : js_error) : Prop :=
  network e url init = Rejected x
  \/ exists resp, network e url init = Fulfilled resp /\ json resp = Rejected x.

(** A request that never delivers: the network leaves it pending, or the
    body of the response never ends. *)
Definition hangs (e : env) (url : string) (init : request_init) : Prop :=
  network e url init = Pending
  \/ exists resp, network e url init = Fulfilled resp /\ json resp = Pending.

(** A call that returns to its caller and leaves no rejected promise
    behind. *)
Definition returns_cleanly {A} (r : completion A * world * list effect) : Prop :=
  (exists a, outcome_of r = Normal a) /\ unhandled_of (effects_of r) = [].

(** An answer that is not [null] and has neither a [success] nor a
    [message] property of its own: a boolean, a number, a string, an
    array, or an object without the two keys. *)
Definition lacks_both_fields (data : value) : Prop :=
  match data with
  | VUndefined | VNull => False
  | VObject props =>
      own_property "success" props = None /\ own_property "message" props = None
  | VBool _ | VNumber _ | VString _ | VArray _ => True
  end.

(** * Properties *)

Local Abbreviation cancel_prompt := "Are you sure you want to cancel this appointment?".
Local Abbreviation cancel_init :=
  {| init_method := "POST";
     init_headers := [("Content-Type", "application/json")];
     init_body := None |}.
Local Abbreviation delete_init body :=
  {| init_method := "POST";
     init_headers := [("Content-Type", "application/x-www-form-urlencoded")];
     init_body := Some body |}.
Local Abbreviation delete_prompt date :=
  ("Are you sure you want to delete all appointments for " +:+ date +:+ "?").
Local Abbreviation error_log x := [LogValue (VString "Error:"); LogError x].

(** ** Strings *)

Lemma prefix_app (s t : string) : String.prefix s (s +:+ t) = true.
Proof.
  induction s as [|c s IH]; simpl.
  - by destruct t.
  - destruct (Ascii.ascii_dec c c); [exact IH | congruence].
Qed.

Lemma includes_app (pre s post : string) : includes s (pre +:+ s +:+ post) = true.
Proof.
  induction pre as [|c pre IH]; simpl.
  - change (includes s (s +:+ post) = true).
    pose proof (prefix_app s post) as Hp.
    destruct (s +:+ post); cbn [includes]; by rewrite Hp.
  - rewrite IH. apply orb_true_r.
Qed.

Lemma includes_tail (pre s : string) : includes s (pre +:+ s) = true.
Proof.
  assert (Hnil : forall u : string, u +:+ "" = u)
    by (induction u as [|c u IH];
        [done | change (String c (u +:+ "") = String c u); by rewrite IH]).
  rewrite <- (Hnil s) at 2. apply includes_app.
Qed.

Lemma occurrences_app (c : Ascii.ascii) (s t : string) :
  occurrences c (s +:+ t) = occurrences c s + occurrences c t.
Proof. induction s as [|d s IH]; simpl; [done | rewrite IH; lia]. Qed.

(** ** The two request flows, case by case *)

Ltac unfold_flow :=
  unfold cancelAppointment, deleteAppointmentsByDate, confirm, fetch,
    preventDefault, getElementById, value_of, bind, get_world, emit, ret.

Lemma cancel_declined (e : env) (w : world) (appointmentId : value) :
  user_confirms e cancel_prompt = false ->
  cancelAppointment appointmentId e w = (Normal tt, w, [Confirm cancel_prompt false]).
Proof. intros Hc. unfold_flow. by rewrite Hc. Qed.

(** An identifier that cannot be printed makes the template literal of
    line 26 throw, after the prompt and before [fetch]. *)
Lemma cancel_unprintable (e : env) (w : world) (appointmentId : value) (x : js_error) :
  user_confirms e cancel_prompt = true ->
  to_string appointmentId = Throw x ->
  cancelAppointment appointmentId e w = (Throw x, w, [Confirm cancel_prompt true]).
Proof. intros Hc Hid. unfold_flow. by rewrite Hc, Hid. Qed.

Lemma cancel_failed
    (e : env) (w : world) (appointmentId : value) (id : string) (x : js_error) :
  user_confirms e cancel_prompt = true ->
  to_string appointmentId = Normal id ->
  fails_with e ("/cancel_appointment/" +:+ id) cancel_init x ->
  cancelAppointment appointmentId e w =
    (Normal tt, w,
     [Confirm cancel_prompt true;
      Fetch ("/cancel_appointment/" +:+ id) cancel_init;
      ConsoleError (error_log x);
      Alert "Error cancelling appointment"]).
Proof.
  intros Hc Hid [Hn | (resp & Hn & Hj)]; unfold_flow; rewrite Hc, Hid; cbn;
    rewrite Hn; cbn.
  - done.
  - by rewrite Hj.
Qed.

Lemma cancel_hangs (e : env) (w : world) (appointmentId : value) (id : string) :
  user_confirms e cancel_prompt = true ->
  to_string appointmentId = Normal id ->
  hangs e ("/cancel_appointment/" +:+ id) cancel_init ->
  cancelAppointment appointmentId e w =
    (Normal tt, w,
     [Confirm cancel_prompt true;
      Fetch ("/cancel_appointment/" +:+ id) cancel_init]).
Proof.
  intros Hc Hid [Hn | (resp & Hn & Hj)]; unfold_flow; rewrite Hc, Hid; cbn;
    rewrite Hn; cbn.
  - done.
  - by rewrite Hj.
Qed.

Lemma cancel_answered
    (e : env) (w : world) (appointmentId : value) (id : string)
    (resp : response) (data success : value) :
  user_confirms e cancel_prompt = true ->
  to_string appointmentId = Normal id ->
  network e ("/cancel_appointment/" +:+ id) cancel_init = Fulfilled resp ->
  json resp = Fulfilled data ->
  get data "success" = Normal success ->
  cancelAppointment appointmentId e w =
    (Normal tt, w,
     [Confirm cancel_prompt true;
      Fetch ("/cancel_appointment/" +:+ id) cancel_init]
     ++ (if to_boolean success
         then [Alert "Appointment cancelled successfully"; Reload]
         else match get data "message" with
              | Normal message =>
                  match to_string message with
                  | Normal text => [Alert ("Error cancelling appointment: " +:+ text)]
                  | Throw x =>
                      [ConsoleError (error_log x); Alert "Error cancelling appointment"]
                  end
              | Throw x =>
                  [ConsoleError (error_log x); Alert "Error cancelling appointment"]
              end)).
Proof.
  intros Hc Hid Hn Hj Hs. unfold_flow. rewrite Hc, Hid. cbn. rewrite Hn. cbn.
  rewrite Hj. cbn. rewrite Hs. cbn. destruct (to_boolean success); cbn; [done |].
  destruct (get data "message") as [message |]; cbn; [| done].
  by destruct (to_string message).
Qed.

Lemma cancel_unreadable
    (e : env) (w : world) (appointmentId : value) (id : string)
    (resp : response) (data : value) (x : js_error) :
  user_confirms e cancel_prompt = true ->
  to_string appointmentId = Normal id ->
  network e ("/cancel_appointment/" +:+ id) cancel_init = Fulfilled resp ->
  json resp = Fulfilled data ->
  get data "success" = Throw x ->
  cancelAppointment appointmentId e w =
    (Normal tt, w,
     [Confirm cancel_prompt true;
      Fetch ("/cancel_appointment/" +:+ id) cancel_init;
      ConsoleError (error_log x);
      Alert "Error cancelling appointment"]).
Proof.
  intros Hc Hid Hn Hj Hs. unfold_flow. rewrite Hc, Hid. cbn. rewrite Hn. cbn.
  rewrite Hj. cbn. by rewrite Hs.
Qed.

Lemma delete_without_input (e : env) (w : world) (event : dom_event) :
  element_by_id "deleteDate" (w_dom w) = None ->
  deleteAppointmentsByDate event e w =
    (Throw (TypeError "Cannot read properties of null (reading 'value')"), w,
     [PreventDefault event]).
Proof. intros Hel. unfold_flow. by rewrite Hel. Qed.

Lemma delete_empty (e : env) (w : world) (event : dom_event) :
  field_holds "deleteDate" (w_dom w) "" ->
  deleteAppointmentsByDate event e w =
    (Normal tt, w, [PreventDefault event; Alert "Please select a date"]).
Proof.
  intros (i & n & Hel & Hn & Hv). unfold_flow. rewrite Hel. cbn.
  by rewrite Hn, Hv.
Qed.

Ltac enter_delete H date :=
  let i := fresh "i" in
  let n := fresh "n" in
  let Hel := fresh "Hel" in
  let Hn := fresh "Hn" in
  let Hv := fresh "Hv" in
  destruct H as (i & n & Hel & Hn & Hv);
  unfold_flow; rewrite Hel; cbn; rewrite Hn, Hv;
  destruct date as [|? ?]; [congruence |].

Lemma delete_declined (e : env) (w : world) (event : dom_event) (date : string) :
  field_holds "deleteDate" (w_dom w) date ->
  date <> "" ->
  user_confirms e (delete_prompt date) = false ->
  deleteAppointmentsByDate event e w =
    (Normal tt, w, [PreventDefault event; Confirm (delete_prompt date) false]).
Proof.
  intros Hf Hne Hc. enter_delete Hf date. by rewrite Hc.
Qed.

Lemma delete_failed
    (e : env) (w : world) (event : dom_event) (date : string) (x : js_error) :
  field_holds "deleteDate" (w_dom w) date ->
  date <> "" ->
  user_confirms e (delete_prompt date) = true ->
  fails_with e "/delete_appointments_by_date" (delete_init ("date=" +:+ date)) x ->
  deleteAppointmentsByDate event e w =
    (Normal tt, w,
     [PreventDefault event;
      Confirm (delete_prompt date) true;
      Fetch "/delete_appointments_by_date" (delete_init ("date=" +:+ date));
      ConsoleError (error_log x);
      Alert "Error deleting appointments"]).
Proof.
  intros Hf Hne Hc [Hq | (resp & Hq & Hj)]; enter_delete Hf date;
    rewrite Hc, Hq; cbn.
  - done.
  - by rewrite Hj.
Qed.

Lemma delete_hangs (e : env) (w : world) (event : dom_event) (date : string) :
  field_holds "deleteDate" (w_dom w) date ->
  date <> "" ->
  user_confirms e (delete_prompt date) = true ->
  hangs e "/delete_appointments_by_date" (delete_init ("date=" +:+ date)) ->
  deleteAppointmentsByDate event e w =
    (Normal tt, w,
     [PreventDefault event;
      Confirm (delete_prompt date) true;
      Fetch "/delete_appointments_by_date" (delete_init ("date=" +:+ date))]).
Proof.
  intros Hf Hne Hc [Hq | (resp & Hq & Hj)]; enter_delete Hf date;
    rewrite Hc, Hq; cbn.
  - done.
  - by rewrite Hj.
Qed.

Lemma delete_answered
    (e : env) (w : world) (event : dom_event) (date : string)
    (resp : response) (data success : value) :
  field_holds "deleteDate" (w_dom w) date ->
  date <> "" ->
  user_confirms e (delete_prompt date) = true ->
  network e "/delete_appointments_by_date" (delete_init ("date=" +:+ date))
    = Fulfilled resp ->
  json resp = Fulfilled data ->
  get data "success" = Normal success ->
  deleteAppointmentsByDate event e w =
    (Normal tt, w,
     [PreventDefault event;
      Confirm (delete_prompt date) true;
      Fetch "/delete_appointments_by_date" (delete_init ("date=" +:+ date))]
     ++ match get data "message" with
        | Normal message =>
            match to_string message with
            | Normal text =>
                if to_boolean success
                then [Alert text; Reload]
                else [Alert ("Error: " +:+ text)]
            | Throw x =>
                [ConsoleError (error_log x); Alert "Error deleting appointments"]
            end
        | Throw x =>
            [ConsoleError (error_log x); Alert "Error deleting appointments"]
        end).
Proof.
  intros Hf Hne Hc Hq Hj Hs. enter_delete Hf date.
  rewrite Hc, Hq. cbn. rewrite Hj. cbn. rewrite Hs. cbn.
  destruct (to_boolean success); cbn;
    (destruct (get data "message") as [message |]; cbn; [| done]);
    by destruct (to_string message).
Qed.

Lemma delete_unreadable
    (e : env) (w : world) (event : dom_event) (date : string)
    (resp : response) (data : value) (x : js_error) :
  field_holds "deleteDate" (w_dom w) date ->
  date <> "" ->
  user_confirms e (delete_prompt date) = true ->
  network e "/delete_appointments_by_date" (delete_init ("date=" +:+ date))
    = Fulfilled resp ->
  json resp = Fulfilled data ->
  get data "success" = Throw x ->
  deleteAppointmentsByDate event e w =
    (Normal tt, w,
     [PreventDefault event;
      Confirm (delete_prompt date) true;
      Fetch "/delete_appointments_by_date" (delete_init ("date=" +:+ date));
      ConsoleError (error_log x);
      Alert "Error deleting appointments"]).
Proof.
  intros Hf Hne Hc Hq Hj Hs. enter_delete Hf date.
  rewrite Hc, Hq. cbn. rewrite Hj. cbn. by rewrite Hs.
Qed.

(** ** Cancelling one appointment *)

(** The identifiers of the data model, strings and numbers, always print;
    so do booleans, [null] and [undefined]. *)
Lemma primitive_to_string (v : value) :
  match v with
  | VArray _ | VObject _ => True
  | _ => exists s, to_string v = Normal s
  end.
Proof. destruct v as [| | [|] | | | |]; simpl; eauto. Qed.

(** C1: when the user accepts the prompt of [cancelAppointment] for an
    identifier that prints as [id], and the server answers with JSON whose
    [success] is [true], the success notification is the only alert, the
    page is reloaded exactly once, after the notification, and nothing is
    logged as an error. *)
Theorem cancelAppointment_success
    (e : env) (w : world) (appointmentId : value) (id : string)
    (resp : response) (data : value) :
  user_confirms e cancel_prompt = true ->
  to_string appointmentId = Normal id ->
  network e ("/cancel_appointment/" +:+ id) cancel_init = Fulfilled resp ->
  json resp = Fulfilled data ->
  get data "success" = Normal (VBool true) ->
  exists t,
    outcome_of (cancelAppointment appointmentId e w) = Normal tt
    /\ effects_of (cancelAppointment appointmentId e w) = t
    /\ t = [Confirm cancel_prompt true;
            Fetch ("/cancel_appointment/" +:+ id) cancel_init;
            Alert "Appointment cancelled successfully";
            Reload]
    /\ alerts_of t = ["Appointment cancelled successfully"]
    /\ reloads_of t = 1
    /\ console_errors_of t = []
    /\ unhandled_of t = [].
Proof.
  intros Hc Hid Hn Hj Hs.
  rewrite (cancel_answered e w appointmentId id resp data _ Hc Hid Hn Hj Hs).
  eexists. split; [done |]. split; [reflexivity | done].
Qed.

(** C5: when the user declines the prompt, [cancelAppointment] returns
    having done nothing but ask: no request, no alert, no reload, no log
    entry, and the page is as it was. *)
Theorem cancelAppointment_declined (e : env) (w : world) (appointmentId : value) :
  user_confirms e cancel_prompt = false ->
  exists t,
    cancelAppointment appointmentId e w = (Normal tt, w, t)
    /\ t = [Confirm cancel_prompt false]
    /\ requests_of t = []
    /\ alerts_of t = []
    /\ reloads_of t = 0
    /\ console_errors_of t = [].
Proof.
  intros Hc. eexists. split; [by apply cancel_declined | done].
Qed.

(** Whatever the network does, an accepted cancellation sends the same
    single request. *)
Lemma cancel_requests (e : env) (w : world) (appointmentId : value) (id : string) :
  user_confirms e cancel_prompt = true ->
  to_string appointmentId = Normal id ->
  requests_of (effects_of (cancelAppointment appointmentId e w)) =
    [("/cancel_appointment/" +:+ id, cancel_init)].
Proof.
  intros Hc Hid.
  destruct (network e ("/cancel_appointment/" +:+ id) cancel_init)
    as [resp | x |] eqn:Hn.
  - destruct (json resp) as [data | x |] eqn:Hj.
    + destruct (get data "success") as [success | x] eqn:Hs.
      * rewrite (cancel_answered e w appointmentId id resp data success Hc Hid Hn Hj Hs).
        destruct (to_boolean success); [done |].
        destruct (get data "message") as [message |]; [| done].
        by destruct (to_string message).
      * by rewrite (cancel_unreadable e w appointmentId id resp data x Hc Hid Hn Hj Hs).
    + rewrite (cancel_failed e w appointmentId id x Hc Hid); [done |].
      right. eauto.
    + rewrite (cancel_hangs e w appointmentId id Hc Hid); [done |].
      right. eauto.
  - rewrite (cancel_failed e w appointmentId id x Hc Hid); [done |]. by left.
  - rewrite (cancel_hangs e w appointmentId id Hc Hid); [done |]. by left.
Qed.

(** C8: when the user accepts the prompt for an identifier that prints as
    [id], [cancelAppointment] issues exactly one request: a POST to
    [/cancel_appointment/] followed by [id], with the header
    [Content-Type: application/json] and no body. *)
Theorem cancelAppointment_request
    (e : env) (w : world) (appointmentId : value) (id : string) :
  user_confirms e cancel_prompt = true ->
  to_string appointmentId = Normal id ->
  exists url init,
    requests_of (effects_of (cancelAppointment appointmentId e w)) = [(url, init)]
    /\ url = "/cancel_appointment/" +:+ id
    /\ init_method init = "POST"
    /\ init_headers init = [("Content-Type", "application/json")]
    /\ init_body init = None.
Proof.
  intros Hc Hid. do 2 eexists. split; [by apply cancel_requests | done].
Qed.

(** ** Deleting the appointments of a date *)

(** C3: when the [deleteDate] input is empty, [deleteAppointmentsByDate]
    shows the validation alert and returns: the user is not asked to
    confirm and no request is sent, whatever the user would have answered
    and whatever the network would have done. *)
Theorem deleteAppointmentsByDate_empty (e : env) (w : world) (event : dom_event) :
  field_holds "deleteDate" (w_dom w) "" ->
  exists t,
    deleteAppointmentsByDate event e w = (Normal tt, w, t)
    /\ alerts_of t = ["Please select a date"]
    /\ prompts_of t = []
    /\ requests_of t = []
    /\ reloads_of t = 0.
Proof.
  intros Hf. eexists. split; [by apply delete_empty | done].
Qed.

(** Whatever the network does, an accepted deletion sends the same single
    request. *)
Lemma delete_requests (e : env) (w : world) (event : dom_event) (date : string) :
  field_holds "deleteDate" (w_dom w) date ->
  date <> "" ->
  user_confirms e (delete_prompt date) = true ->
  requests_of (effects_of (deleteAppointmentsByDate event e w)) =
    [("/delete_appointments_by_date", delete_init ("date=" +:+ date))].
Proof.
  intros Hf Hne Hc.
  destruct (network e "/delete_appointments_by_date" (delete_init ("date=" +:+ date)))
    as [resp | x |] eqn:Hq.
  - destruct (json resp) as [data | x |] eqn:Hj.
    + destruct (get data "success") as [success | x] eqn:Hs.
      * rewrite (delete_answered e w event date resp data success Hf Hne Hc Hq Hj Hs).
        destruct (get data "message") as [message |]; [| done].
        by destruct (to_string message), (to_boolean success).
      * by rewrite (delete_unreadable e w event date resp data x Hf Hne Hc Hq Hj Hs).
    + rewrite (delete_failed e w event date x Hf Hne Hc); [done |].
      right. eauto.
    + rewrite (delete_hangs e w event date Hf Hne Hc); [done |].
      right. eauto.
  - rewrite (delete_failed e w event date x Hf Hne Hc); [done |]. by left.
  - rewrite (delete_hangs e w event date Hf Hne Hc); [done |]. by left.
Qed.

(** C7: with ["2024-01-01"] in the [deleteDate] input and the prompt
    accepted, [deleteAppointmentsByDate] issues exactly one request: a POST
    to [/delete_appointments_by_date] with the header
    [Content-Type: application/x-www-form-urlencoded] and the body
    ["date=2024-01-01"]. *)
Theorem deleteAppointmentsByDate_request (e : env) (w : world) (event : dom_event) :
  field_holds "deleteDate" (w_dom w) "2024-01-01" ->
  user_confirms e (delete_prompt "2024-01-01") = true ->
  exists init,
    requests_of (effects_of (deleteAppointmentsByDate event e w)) =
      [("/delete_appointments_by_date", init)]
    /\ init_method init = "POST"
    /\ init_headers init = [("Content-Type", "application/x-www-form-urlencoded")]
    /\ init_body init = Some "date=2024-01-01".
Proof.
  intros Hf Hc. eexists. split.
  - by apply (delete_requests e w event "2024-01-01").
  - done.
Qed.

(** C10: the date and the identifier go into the request as they are. For
    a non-empty date [s] the body is ["date="] followed by [s], so every
    ["&"] and ["="] of [s] is a separator of the body; for an identifier
    that prints as [id] the URL of a cancellation is
    ["/cancel_appointment/"] followed by [id], and a string prints as
    itself. *)
Theorem requests_are_not_encoded (e : env) (w : world) :
  (forall event s,
      field_holds "deleteDate" (w_dom w) s ->
      s <> "" ->
      user_confirms e (delete_prompt s) = true ->
      exists init,
        requests_of (effects_of (deleteAppointmentsByDate event e w)) =
          [("/delete_appointments_by_date", init)]
        /\ init_body init = Some ("date=" +:+ s)
        /\ occurrences "&"%char ("date=" +:+ s) = occurrences "&"%char s
        /\ occurrences "="%char ("date=" +:+ s) = S (occurrences "="%char s))
  /\ (forall appointmentId id,
         to_string appointmentId = Normal id ->
         user_confirms e cancel_prompt = true ->
         exists url init,
           requests_of (effects_of (cancelAppointment appointmentId e w)) = [(url, init)]
           /\ url = "/cancel_appointment/" +:+ id
           /\ (forall s, appointmentId = VString s -> url = "/cancel_appointment/" +:+ s)
           /\ (forall c, occurrences c url =
                         occurrences c "/cancel_appointment/" + occurrences c id)).
Proof.
  split.
  - intros event s Hf Hne Hc. eexists. split; [by apply delete_requests |].
    repeat split; by rewrite occurrences_app.
  - intros appointmentId id Hid Hc. do 2 eexists.
    split; [by apply cancel_requests |].
    repeat split.
    + intros s ->. simpl in Hid. by injection Hid as <-.
    + intros c. apply occurrences_app.
Qed.

(** ** Answers and failures *)

(** C4: when the server answers either request with JSON whose [success]
    is [false] and whose [message] is the string [X], exactly one alert is
    shown, its text contains [X], and the page is not reloaded (for a
    cancellation: of an identifier that prints). *)
Theorem server_failure_is_alerted
    (e : env) (w : world) (resp : response) (data : value) (X : string) :
  json resp = Fulfilled data ->
  get data "success" = Normal (VBool false) ->
  get data "message" = Normal (VString X) ->
  (forall appointmentId id,
      to_string appointmentId = Normal id ->
      user_confirms e cancel_prompt = true ->
      network e ("/cancel_appointment/" +:+ id) cancel_init = Fulfilled resp ->
      exists text,
        alerts_of (effects_of (cancelAppointment appointmentId e w)) = [text]
        /\ includes X text = true
        /\ reloads_of (effects_of (cancelAppointment appointmentId e w)) = 0)
  /\ (forall event date,
         field_holds "deleteDate" (w_dom w) date ->
         date <> "" ->
         user_confirms e (delete_prompt date) = true ->
         network e "/delete_appointments_by_date" (delete_init ("date=" +:+ date))
           = Fulfilled resp ->
         exists text,
           alerts_of (effects_of (deleteAppointmentsByDate event e w)) = [text]
           /\ includes X text = true
           /\ reloads_of (effects_of (deleteAppointmentsByDate event e w)) = 0).
Proof.
  intros Hj Hs Hm. split.
  - intros appointmentId id Hid Hc Hn.
    rewrite (cancel_answered e w appointmentId id resp data _ Hc Hid Hn Hj Hs), Hm.
    eexists. split; [reflexivity |]. split; [| done].
    apply (includes_tail "Error cancelling appointment: " X).
  - intros event date Hf Hne Hc Hq.
    rewrite (delete_answered e w event date resp data _ Hf Hne Hc Hq Hj Hs), Hm.
    eexists. split; [reflexivity |]. split; [| done].
    apply (includes_tail "Error: " X).
Qed.

(** C6: when the request of either flow is rejected by the network, or its
    response does not parse as JSON, the call returns normally, the error
    is written to the console exactly once, exactly one alert is shown, the
    generic one of the flow, and no rejection is left unhandled (for a
    cancellation: of an identifier that prints, so that there is a
    request). *)
Theorem request_failure_is_logged_and_alerted (e : env) (w : world) (x : js_error) :
  (forall appointmentId id,
      to_string appointmentId = Normal id ->
      user_confirms e cancel_prompt = true ->
      fails_with e ("/cancel_appointment/" +:+ id) cancel_init x ->
      returns_cleanly (cancelAppointment appointmentId e w)
      /\ console_errors_of (effects_of (cancelAppointment appointmentId e w))
         = [error_log x]
      /\ alerts_of (effects_of (cancelAppointment appointmentId e w))
         = ["Error cancelling appointment"]
      /\ reloads_of (effects_of (cancelAppointment appointmentId e w)) = 0)
  /\ (forall event date,
         field_holds "deleteDate" (w_dom w) date ->
         date <> "" ->
         user_confirms e (delete_prompt date) = true ->
         fails_with e "/delete_appointments_by_date" (delete_init ("date=" +:+ date)) x ->
         returns_cleanly (deleteAppointmentsByDate event e w)
         /\ console_errors_of (effects_of (deleteAppointmentsByDate event e w))
            = [error_log x]
         /\ alerts_of (effects_of (deleteAppointmentsByDate event e w))
            = ["Error deleting appointments"]
         /\ reloads_of (effects_of (deleteAppointmentsByDate event e w)) = 0).
Proof.
  split.
  - intros appointmentId id Hid Hc Hfail.
    rewrite (cancel_failed e w appointmentId id x Hc Hid Hfail).
    repeat split; try done. by exists tt.
  - intros event date Hf Hne Hc Hfail.
    rewrite (delete_failed e w event date x Hf Hne Hc Hfail).
    repeat split; try done. by exists tt.
Qed.

(** ** The document under the timer callbacks *)

Lemma positions_spec (p : nat -> node -> bool) (l : list node) (from i : nat) :
  i ∈ positions p from l <->
  exists n, from <= i /\ l !! (i - from) = Some n /\ p i n = true.
Proof.
  revert from. induction l as [|m l IH]; intros from; simpl.
  - split; [by intros ?%elem_of_nil | by intros (n & _ & ? & _)].
  - assert (Htail : i ∈ positions p (S from) l <->
                    exists n, from < i /\ (m :: l) !! (i - from) = Some n /\ p i n = true).
    { rewrite IH. split; intros (n & Hle & Hl & Hp); exists n; (split; [lia |]); split;
        try done.
      - replace (i - from) with (S (i - S from)) by lia. done.
      - replace (i - from) with (S (i - S from)) in Hl by lia. done. }
    assert (Hhere : forall n, (m :: l) !! (from - from) = Some n -> n = m).
    { intros n. rewrite Nat.sub_diag. simpl. congruence. }
    destruct (p from m) eqn:Hp.
    + rewrite elem_of_cons, Htail. split.
      * intros [-> | (n & Hlt & Hl & Hq)].
        -- exists m. rewrite Nat.sub_diag. done.
        -- exists n. split; [lia | done].
      * intros (n & Hle & Hl & Hq).
        destruct (decide (i = from)) as [-> | Hne]; [by left | right].
        exists n. split; [lia | done].
    + rewrite Htail. split.
      * intros (n & Hlt & Hl & Hq). exists n. split; [lia | done].
      * intros (n & Hle & Hl & Hq).
        destruct (decide (i = from)) as [-> | Hne].
        -- apply Hhere in Hl as ->. congruence.
        -- exists n. split; [lia | done].
Qed.

Lemma select_all_spec (selector : list string) (d : dom) (i : nat) :
  i ∈ select_all selector d <->
  exists n, d !! i = Some n /\ in_document d i = true /\ matches selector n = true.
Proof.
  unfold select_all. rewrite positions_spec. split.
  - intros (n & _ & Hl & Hp). rewrite Nat.sub_0_r in Hl.
    apply andb_true_iff in Hp as [? ?]. eauto.
  - intros (n & Hl & Hd & Hm). exists n. rewrite Nat.sub_0_r, Hd, Hm.
    split; [lia | done].
Qed.

Lemma alter_all_length (f : node -> node) (ks : list nat) (d : dom) :
  length (alter_all f ks d) = length d.
Proof.
  revert d. induction ks as [|k ks IH]; intros d; simpl; [done |].
  unfold alter_all in *. simpl. by rewrite IH, length_alter.
Qed.

Lemma alter_all_lookup (f : node -> node) (ks : list nat) (d : dom) (i : nat) :
  (forall n, f (f n) = f n) ->
  alter_all f ks d !! i = if bool_decide (i ∈ ks) then f <$> d !! i else d !! i.
Proof.
  intros Hidem. revert d. induction ks as [|k ks IH]; intros d.
  - done.
  - unfold alter_all in *. simpl. rewrite IH.
    destruct (decide (i = k)) as [-> | Hne].
    + rewrite list_lookup_alter_eq.
      rewrite (bool_decide_eq_true_2 (k ∈ k :: ks)) by (apply elem_of_cons; by left).
      case_bool_decide; [| done].
      destruct (d !! k); simpl; [by rewrite Hidem | done].
    + rewrite list_lookup_alter_ne by done.
      assert (Hiff : i ∈ k :: ks <-> i ∈ ks) by (rewrite elem_of_cons; split; [intros [? | ?]; [congruence | done] | by right]).
      by rewrite (bool_decide_ext _ _ Hiff).
Qed.

Lemma add_class_idemp (c : string) (n : node) : add_class c (add_class c n) = add_class c n.
Proof.
  unfold add_class, has_class. destruct n as [id cs v p]. simpl.
  destruct (bool_decide (c ∈ cs)) eqn:Hin; simpl.
  - by rewrite Hin.
  - rewrite bool_decide_eq_true_2; [done |].
    apply elem_of_app. right. apply elem_of_cons. by left.
Qed.

Lemma detach_idemp (n : node) : detach (detach n) = detach n.
Proof. done. Qed.

(** Being in the document only depends on the parent links. *)
Lemma is_connected_ext (fuel : nat) (d d' : dom) (i : nat) :
  (forall j, node_parent <$> d' !! j = node_parent <$> d !! j) ->
  is_connected fuel d' i = is_connected fuel d i.
Proof.
  intros Hpar. revert i. induction fuel as [|fuel IH]; intros i; simpl; [done |].
  specialize (Hpar i).
  destruct (d' !! i) as [n' |], (d !! i) as [n |]; simpl in Hpar; try done.
  injection Hpar as ->. by destruct (node_parent n).
Qed.

Lemma in_document_detached (d : dom) (i : nat) (n : node) :
  d !! i = Some n -> node_parent n = Detached -> in_document d i = false.
Proof.
  intros Hl Hp. unfold in_document. destruct (length d); simpl; [done |].
  by rewrite Hl, Hp.
Qed.

Lemma matches_alert (n : node) :
  matches ["alert-success"; "alert-danger"] n
  = has_class "alert-success" n || has_class "alert-danger" n.
Proof. unfold matches. simpl. by rewrite orb_false_r. Qed.

(** ** The timer queue *)

Lemma pick_next_elem (timers rest : list (N * task)) (m : N * task) :
  pick_next timers = Some (m, rest) -> m ∈ timers.
Proof.
  revert m rest. induction timers as [|t timers IH]; intros m rest; simpl; [done |].
  destruct (pick_next timers) as [[m' rest'] |].
  - destruct (t.1 <=? m'.1)%N; intros [= <- <-].
    + apply elem_of_cons. by left.
    + apply elem_of_cons. right. by eapply IH.
  - intros [= <- <-]. apply elem_of_cons. by left.
Qed.

(** A timer at the head of the queue that nothing precedes in time fires
    first. *)
Lemma pick_next_head (t : N * task) (rest : list (N * task)) :
  (forall x, x ∈ rest -> (t.1 <= x.1)%N) ->
  pick_next (t :: rest) = Some (t, rest).
Proof.
  intros Hmin. simpl.
  destruct (pick_next rest) as [[m rest'] |] eqn:Hp.
  - apply pick_next_elem in Hp. apply Hmin in Hp.
    by apply N.leb_le in Hp as ->.
  - by destruct rest as [| x rest]; [| simpl in Hp; destruct (pick_next rest) as [[? ?] |];
                                       [destruct (_ <=? _)%N |]].
Qed.

Lemma event_loop_unfold (fuel : nat) (deadline : N) (e : env) (w : world) :
  event_loop fuel deadline e w =
  match pick_next (w_timers w) with
  | None => Some (set_now (N.max (w_now w) deadline) w, [])
  | Some ((due, cb), rest) =>
      if (deadline <? due)%N then Some (set_now (N.max (w_now w) deadline) w, [])
      else
        match fuel with
        | O => None
        | S fuel' =>
            match run_task cb e (set_now (N.max (w_now w) due) (set_timers rest w)) with
            | (r, w1, t1) =>
                match event_loop fuel' deadline e w1 with
                | Some (w2, t2) => Some (w2, t1 ++ report r ++ t2)
                | None => None
                end
            end
        end
  end.
Proof. by destruct fuel. Qed.

(** Nothing fires while every pending timer is due after the deadline. *)
Lemma event_loop_idle (fuel : nat) (deadline : N) (e : env) (w : world) :
  (forall x, x ∈ w_timers w -> (deadline < x.1)%N) ->
  event_loop fuel deadline e w = Some (set_now (N.max (w_now w) deadline) w, []).
Proof.
  intros Hlate. rewrite event_loop_unfold.
  destruct (pick_next (w_timers w)) as [[[due cb] rest] |] eqn:Hp; [| done].
  apply pick_next_elem, Hlate in Hp. simpl in Hp.
  by apply N.ltb_lt in Hp as ->.
Qed.

Lemma silent_step (r : option (world * list effect)) :
  match r with
  | Some (w2, t2) => Some (w2, [] ++ report (Normal tt) ++ t2)
  | None => None
  end = r.
Proof. by destruct r as [[? ?] |]. Qed.

(** One turn of the loop on the outer callback: the alert gets the class
    and its removal is queued 500 ms later. *)
Lemma event_loop_fade
    (fuel : nat) (deadline T : N) (e : env) (w : world) (k : nat)
    (rest : list (N * task)) :
  w_timers w = (T, FadeOut k) :: rest ->
  (forall x, x ∈ rest -> (T <= x.1)%N) ->
  (T <= deadline)%N ->
  (w_now w <= T)%N ->
  event_loop (S fuel) deadline e w =
  event_loop fuel deadline e
    {| w_dom := alter (add_class "alert-fade-out") k (w_dom w);
       w_href := w_href w;
       w_now := T;
       w_timers := rest ++ [((T + 500)%N, RemoveAlert k)] |}.
Proof.
  intros Ht Hmin Hdue Hnow. rewrite event_loop_unfold, Ht, pick_next_head by done.
  apply N.ltb_ge in Hdue as ->.
  unfold run_task, classList_add, setTimeout, bind, get_world, put_world. cbn.
  rewrite N.max_r by done. apply silent_step.
Qed.

(** One turn of the loop on the inner callback: the alert is detached. *)
Lemma event_loop_remove
    (fuel : nat) (deadline T : N) (e : env) (w : world) (k : nat)
    (rest : list (N * task)) :
  w_timers w = (T, RemoveAlert k) :: rest ->
  (forall x, x ∈ rest -> (T <= x.1)%N) ->
  (T <= deadline)%N ->
  event_loop (S fuel) deadline e w =
  event_loop fuel deadline e
    {| w_dom := alter detach k (w_dom w);
       w_href := w_href w;
       w_now := N.max (w_now w) T;
       w_timers := rest |}.
Proof.
  intros Ht Hmin Hdue. rewrite event_loop_unfold, Ht, pick_next_head by done.
  apply N.ltb_ge in Hdue as ->.
  unfold run_task, element_remove, bind, get_world, put_world. cbn.
  apply silent_step.
Qed.

(** A batch of outer callbacks due together fires in order; the queue is
    left with what was behind the batch, then the removals. *)
Lemma event_loop_fades
    (fuel : nat) (deadline T : N) (e : env) (ks : list nat) :
  (T <= deadline)%N ->
  forall (w : world) (later : list (N * task)),
    w_timers w = ((fun k => (T, FadeOut k)) <$> ks) ++ later ->
    (forall x, x ∈ later -> (T <= x.1)%N) ->
    (w_now w <= T)%N ->
    exists w',
      event_loop (length ks + fuel) deadline e w = event_loop fuel deadline e w'
      /\ w_dom w' = alter_all (add_class "alert-fade-out") ks (w_dom w)
      /\ w_timers w' = later ++ ((fun k => ((T + 500)%N, RemoveAlert k)) <$> ks)
      /\ (w_now w' <= T)%N.
Proof.
  intros Hdue. induction ks as [|k ks IH]; intros w later Ht Hmin Hnow.
  - exists w. simpl in *. by rewrite app_nil_r.
  - simpl in Ht. simpl length. rewrite Nat.add_succ_l.
    erewrite event_loop_fade; [| exact Ht | | done | done].
    + edestruct (IH {| w_dom := alter (add_class "alert-fade-out") k (w_dom w);
                       w_href := w_href w;
                       w_now := T;
                       w_timers := ((fun k => (T, FadeOut k)) <$> ks)
                                   ++ (later ++ [((T + 500)%N, RemoveAlert k)]) |})
        as (w' & Hrun & Hdom & Htimers & Hnow'); simpl.
      * reflexivity.
      * intros x [Hx | ->%list_elem_of_singleton]%elem_of_app; [by apply Hmin | simpl; lia].
      * lia.
      * exists w'. rewrite <- app_assoc.
        split; [exact Hrun |]. split; [exact Hdom |]. split; [| done].
        rewrite Htimers. by rewrite <- app_assoc.
    + intros x [(k' & -> & _)%list_elem_of_fmap | Hx]%elem_of_app; [simpl; lia | by apply Hmin].
Qed.

(** A batch of inner callbacks due together fires in order. *)
Lemma event_loop_removes
    (fuel : nat) (deadline T : N) (e : env) (ks : list nat) :
  (T <= deadline)%N ->
  forall (w : world) (later : list (N * task)),
    w_timers w = ((fun k => (T, RemoveAlert k)) <$> ks) ++ later ->
    (forall x, x ∈ later -> (T <= x.1)%N) ->
    exists w',
      event_loop (length ks + fuel) deadline e w = event_loop fuel deadline e w'
      /\ w_dom w' = alter_all detach ks (w_dom w)
      /\ w_timers w' = later.
Proof.
  intros Hdue. induction ks as [|k ks IH]; intros w later Ht Hmin.
  - exists w. by simpl in *.
  - simpl in Ht. simpl length. rewrite Nat.add_succ_l.
    erewrite event_loop_remove; [| exact Ht | | done].
    + edestruct (IH {| w_dom := alter detach k (w_dom w);
                       w_href := w_href w;
                       w_now := N.max (w_now w) T;
                       w_timers := ((fun k => (T, RemoveAlert k)) <$> ks) ++ later |})
        as (w' & Hrun & Hdom & Htimers); simpl; [reflexivity | done |].
      exists w'. done.
    + intros x [(k' & -> & _)%list_elem_of_fmap | Hx]%elem_of_app; [simpl; lia | by apply Hmin].
Qed.

(** ** Dismissing the alerts *)

Lemma forEach_setTimeout (e : env) (delay : N) (l : list nat) (w : world) :
  forEach l (fun alert => setTimeout (FadeOut alert) delay) e w =
  (Normal tt,
   set_timers (w_timers w ++ ((fun k => ((w_now w + delay)%N, FadeOut k)) <$> l)) w,
   []).
Proof.
  revert w. induction l as [|k l IH]; intros w.
  - simpl. unfold ret. rewrite app_nil_r. by destruct w.
  - simpl. unfold bind, setTimeout at 1, bind, get_world, put_world.
    rewrite IH. simpl. by rewrite <- app_assoc.
Qed.

(** [autoDismissAlerts] itself only queues one outer callback per alert. *)
Lemma autoDismissAlerts_run (e : env) (w : world) :
  autoDismissAlerts e w =
  (Normal tt,
   set_timers (w_timers w
               ++ ((fun k => ((w_now w + 1500)%N, FadeOut k))
                     <$> select_all ["alert-success"; "alert-danger"] (w_dom w))) w,
   []).
Proof.
  unfold autoDismissAlerts, querySelectorAll, bind, get_world, ret.
  by rewrite forEach_setTimeout.
Qed.

(** What [classList.add] and [remove] do to a node. *)
Lemma add_class_spec (c : string) (n : node) :
  has_class c (add_class c n) = true
  /\ (forall c', has_class c' n = true -> has_class c' (add_class c n) = true)
  /\ node_id (add_class c n) = node_id n
  /\ node_value (add_class c n) = node_value n
  /\ node_parent (add_class c n) = node_parent n.
Proof.
  unfold add_class, has_class. destruct n as [id cs v p]. simpl.
  destruct (bool_decide (c ∈ cs)) eqn:Hin; simpl.
  - by rewrite Hin.
  - split; [| split; [| done]].
    + apply bool_decide_eq_true_2, elem_of_app. right. apply elem_of_cons. by left.
    + intros c' Hc'%bool_decide_eq_true_1.
      apply bool_decide_eq_true_2, elem_of_app. by left.
Qed.

(** C9: [autoDismissAlerts] is called on a page with no timer pending, at
    time [w_now w]; [event_loop] then gives the page [dt] ms later. The
    call itself changes nothing. Every element of the document classed
    [alert-success] or [alert-danger] is as it was before 1500 ms; from
    1500 ms on it has the class [alert-fade-out] beside the classes it
    had, and is still in the document, under the same parent; from
    2000 ms on it has no parent and is out of the document. Every other
    node is as it was at all times: its classes, its value and its parent
    link are not written (what hangs under an alert leaves the document
    with it). *)
Theorem autoDismissAlerts_timeline (e : env) (w : world) (fuel : nat) (dt : N) :
  w_timers w = [] ->
  2 * length (select_all ["alert-success"; "alert-danger"] (w_dom w)) <= fuel ->
  exists w0,
    autoDismissAlerts e w = (Normal tt, w0, [])
    /\ w_dom w0 = w_dom w
    /\ exists w1,
    event_loop fuel (w_now w + dt) e w0 = Some (w1, [])
    /\ length (w_dom w1) = length (w_dom w)
    /\ ((dt < 1500)%N -> w_dom w1 = w_dom w)
    /\ forall i n,
         w_dom w !! i = Some n ->
         if in_document (w_dom w) i
            && (has_class "alert-success" n || has_class "alert-danger" n)
         then
           ((1500 <= dt < 2000)%N ->
              exists n',
                w_dom w1 !! i = Some n'
                /\ n' = add_class "alert-fade-out" n
                /\ has_class "alert-fade-out" n' = true
                /\ (forall c, has_class c n = true -> has_class c n' = true)
                /\ node_parent n' = node_parent n
                /\ in_document (w_dom w1) i = true)
           /\ ((2000 <= dt)%N ->
                 exists n',
                   w_dom w1 !! i = Some n'
                   /\ n' = detach (add_class "alert-fade-out" n)
                   /\ has_class "alert-fade-out" n' = true
                   /\ node_parent n' = Detached
                   /\ in_document (w_dom w1) i = false)
         else
           w_dom w1 !! i = Some n.
Proof.
  intros Hnone Hfuel.
  set (alerts := select_all ["alert-success"; "alert-danger"] (w_dom w)) in *.
  assert (Halert : forall i n, w_dom w !! i = Some n ->
            bool_decide (i ∈ alerts)
            = in_document (w_dom w) i
              && (has_class "alert-success" n || has_class "alert-danger" n)).
  { intros i n Hi. rewrite <- matches_alert.
    destruct (in_document (w_dom w) i && matches _ n) eqn:Hb.
    - apply bool_decide_eq_true_2, select_all_spec.
      apply andb_true_iff in Hb as [? ?]. eauto.
    - apply bool_decide_eq_false_2. intros (n' & Hi' & Hd & Hm)%select_all_spec.
      rewrite Hi in Hi'. injection Hi' as <-. by rewrite Hd, Hm in Hb. }
  eexists. split; [apply autoDismissAlerts_run |]. split; [done |].
  fold alerts. rewrite Hnone. simpl app.
  set (w0 := set_timers _ w).
  destruct (N.ltb_spec dt 1500) as [Hearly | Hfade].
  - (* nothing is due yet *)
    eexists. split.
    { apply event_loop_idle. intros x (k & -> & _)%list_elem_of_fmap. simpl. lia. }
    split; [done |]. split; [done |].
    intros i n Hi. simpl. rewrite Hi.
    destruct (_ && _); [split; intros; lia | done].
  - replace fuel with (length alerts + (fuel - length alerts)) by lia.
    destruct (event_loop_fades (fuel - length alerts) (w_now w + dt) (w_now w + 1500) e
                alerts ltac:(lia) w0 [])
      as (wf & Hrun & Hdom & Htimers & _).
    { by rewrite app_nil_r. }
    { by intros x ?%elem_of_nil. }
    { simpl. lia. }
    rewrite Hrun. simpl in Htimers, Hdom.
    destruct (N.ltb_spec dt 2000) as [Hkept | Hgone].
    + (* the removals are not due yet *)
      eexists. split.
      { apply event_loop_idle. rewrite Htimers.
        intros x (k & -> & _)%list_elem_of_fmap. simpl. lia. }
      simpl. rewrite Hdom.
      split; [apply alter_all_length |]. split; [lia |].
      intros i n Hi.
      rewrite (alter_all_lookup _ _ _ _ (add_class_idemp _)), Hi, (Halert i n Hi).
      destruct (in_document (w_dom w) i) eqn:Hin; simpl; [| done].
      destruct (_ || _); [| done].
      split; [| lia]. intros _.
      destruct (add_class_spec "alert-fade-out" n) as (Hhas & Hkeep & _ & _ & Hpar).
      eexists. split; [reflexivity |]. split; [reflexivity |].
      split; [exact Hhas |]. split; [exact Hkeep |]. split; [exact Hpar |].
      rewrite <- Hin. unfold in_document. rewrite alter_all_length.
      apply is_connected_ext. intros j.
      rewrite (alter_all_lookup _ _ _ _ (add_class_idemp _)).
      case_bool_decide; [| done]. by destruct (w_dom w !! j).
    + (* fades, then removals *)
      replace (fuel - length alerts)
        with (length alerts + (fuel - length alerts - length alerts)) by lia.
      destruct (event_loop_removes (fuel - length alerts - length alerts)
                  (w_now w + dt) (w_now w + 1500 + 500) e alerts ltac:(lia) wf [])
        as (wr & Hrun' & Hdom' & Htimers').
      { by rewrite app_nil_r. }
      { by intros x ?%elem_of_nil. }
      rewrite Hrun'. eexists. split.
      { apply event_loop_idle. rewrite Htimers'. by intros x ?%elem_of_nil. }
      simpl. rewrite Hdom', Hdom.
      split; [by rewrite !alter_all_length |]. split; [lia |].
      intros i n Hi.
      assert (Hlook : alter_all detach alerts
                        (alter_all (add_class "alert-fade-out") alerts (w_dom w)) !! i
                      = if bool_decide (i ∈ alerts)
                        then Some (detach (add_class "alert-fade-out" n))
                        else Some n).
      { rewrite (alter_all_lookup _ _ _ _ detach_idemp).
        rewrite (alter_all_lookup _ _ _ _ (add_class_idemp _)), Hi.
        by case_bool_decide. }
      rewrite Hlook, (Halert i n Hi).
      destruct (in_document (w_dom w) i) eqn:Hin; simpl; [| done].
      destruct (_ || _) eqn:Hcls; [| done].
      split; [lia |]. intros _.
      destruct (add_class_spec "alert-fade-out" n) as (Hhas & _).
      eexists. split; [reflexivity |]. split; [reflexivity |].
      split; [exact Hhas |]. split; [reflexivity |].
      eapply in_document_detached;
        [by rewrite Hlook, (Halert i n Hi), Hin, Hcls | reflexivity].
Qed.

(** ** No exception escapes *)

Lemma delete_without_value (e : env) (w : world) (event : dom_event) (i : nat) :
  element_by_id "deleteDate" (w_dom w) = Some i ->
  match w_dom w !! i with Some n => node_value n | None => None end = None ->
  deleteAppointmentsByDate event e w =
    (Normal tt, w, [PreventDefault event; Alert "Please select a date"]).
Proof. intros Hel Hv. unfold_flow. rewrite Hel. cbn. by rewrite Hv. Qed.




(** * Further properties *)

(** ** Every path of the two request flows *)

(** Splits a goal about [cancelAppointment id e w] into the paths of the
    function, each with its run rewritten to the effects of the path. *)
Ltac cancel_paths e w appointmentId :=
  let Hc := fresh "Hc" in
  let Hid := fresh "Hid" in
  let Hn := fresh "Hn" in
  let Hj := fresh "Hj" in
  let Hs := fresh "Hs" in
  let Hb := fresh "Hb" in
  let Hm := fresh "Hm" in
  let Ht := fresh "Ht" in
  let id := fresh "id" in
  let resp := fresh "resp" in
  let data := fresh "data" in
  let success := fresh "success" in
  let message := fresh "message" in
  let text := fresh "text" in
  let x := fresh "x" in
  destruct (user_confirms e cancel_prompt) eqn:Hc;
  [ destruct (to_string appointmentId) as [id | x] eqn:Hid;
    [ destruct (network e ("/cancel_appointment/" +:+ id) cancel_init)
        as [resp | x |] eqn:Hn;
      [ destruct (json resp) as [data | x |] eqn:Hj;
        [ destruct (get data "success") as [success | x] eqn:Hs;
          [ rewrite (cancel_answered e w appointmentId id resp data success
                       Hc Hid Hn Hj Hs);
            destruct (to_boolean success) eqn:Hb;
            [ | destruct (get data "message") as [message | x] eqn:Hm;
                [ destruct (to_string message) as [text | x] eqn:Ht | ] ]
          | rewrite (cancel_unreadable e w appointmentId id resp data x
                       Hc Hid Hn Hj Hs) ]
        | rewrite (cancel_failed e w appointmentId id x Hc Hid
                     (or_intror (ex_intro _ resp (conj Hn Hj))))
        | rewrite (cancel_hangs e w appointmentId id Hc Hid
                     (or_intror (ex_intro _ resp (conj Hn Hj)))) ]
      | rewrite (cancel_failed e w appointmentId id x Hc Hid (or_introl Hn))
      | rewrite (cancel_hangs e w appointmentId id Hc Hid (or_introl Hn)) ]
    | rewrite (cancel_unprintable e w appointmentId x Hc Hid) ]
  | rewrite (cancel_declined e w appointmentId Hc) ].

(** The same for [deleteAppointmentsByDate event e w]. *)
Ltac delete_paths e w event :=
  let Hel := fresh "Hel" in
  let Hv := fresh "Hv" in
  let Hf := fresh "Hf" in
  let Hne := fresh "Hne" in
  let Hc := fresh "Hc" in
  let Hq := fresh "Hq" in
  let Hj := fresh "Hj" in
  let Hs := fresh "Hs" in
  let Hb := fresh "Hb" in
  let Hm := fresh "Hm" in
  let Ht := fresh "Ht" in
  let i := fresh "i" in
  let n := fresh "n" in
  let date := fresh "date" in
  let resp := fresh "resp" in
  let data := fresh "data" in
  let success := fresh "success" in
  let message := fresh "message" in
  let text := fresh "text" in
  let x := fresh "x" in
  destruct (element_by_id "deleteDate" (w_dom w)) as [i |] eqn:Hel;
  [ destruct (match w_dom w !! i with Some n => node_value n | None => None end)
      as [date |] eqn:Hv;
    [ assert (Hf : field_holds "deleteDate" (w_dom w) date)
        by (destruct (w_dom w !! i) as [n |] eqn:?; [by exists i, n | done]);
      destruct (decide (date = "")) as [-> | Hne];
      [ rewrite (delete_empty e w event Hf)
      | destruct (user_confirms e (delete_prompt date)) eqn:Hc;
        [ destruct (network e "/delete_appointments_by_date"
                      (delete_init ("date=" +:+ date))) as [resp | x |] eqn:Hq;
          [ destruct (json resp) as [data | x |] eqn:Hj;
            [ destruct (get data "success") as [success | x] eqn:Hs;
              [ rewrite (delete_answered e w event date resp data success
                           Hf Hne Hc Hq Hj Hs);
                destruct (get data "message") as [message | x] eqn:Hm;
                [ destruct (to_string message) as [text | x] eqn:Ht;
                  [ destruct (to_boolean success) eqn:Hb | ] | ]
              | rewrite (delete_unreadable e w event date resp data x
                           Hf Hne Hc Hq Hj Hs) ]
            | rewrite (delete_failed e w event date x Hf Hne Hc
                         (or_intror (ex_intro _ resp (conj Hq Hj))))
            | rewrite (delete_hangs e w event date Hf Hne Hc
                         (or_intror (ex_intro _ resp (conj Hq Hj)))) ]
          | rewrite (delete_failed e w event date x Hf Hne Hc (or_introl Hq))
          | rewrite (delete_hangs e w event date Hf Hne Hc (or_introl Hq)) ]
        | rewrite (delete_declined e w event date Hf Hne Hc) ] ]
    | rewrite (delete_without_value e w event i Hel Hv) ]
  | rewrite (delete_without_input e w event Hel) ].

(** X1: when the prompt of [deleteAppointmentsByDate] is accepted and the
    server answers with JSON whose [success] is [true] and whose message
    prints as [text], [text] is shown as it is, in the only alert, and the
    page is reloaded once, after the alert; nothing is logged as an
    error. *)
Theorem deleteAppointmentsByDate_success
    (e : env) (w : world) (event : dom_event) (date : string)
    (resp : response) (data message : value) (text : string) :
  field_holds "deleteDate" (w_dom w) date ->
  date <> "" ->
  user_confirms e (delete_prompt date) = true ->
  network e "/delete_appointments_by_date" (delete_init ("date=" +:+ date))
    = Fulfilled resp ->
  json resp = Fulfilled data ->
  get data "success" = Normal (VBool true) ->
  get data "message" = Normal message ->
  to_string message = Normal text ->
  exists t,
    outcome_of (deleteAppointmentsByDate event e w) = Normal tt
    /\ effects_of (deleteAppointmentsByDate event e w) = t
    /\ t = [PreventDefault event;
            Confirm (delete_prompt date) true;
            Fetch "/delete_appointments_by_date" (delete_init ("date=" +:+ date));
            Alert text;
            Reload]
    /\ alerts_of t = [text]
    /\ reloads_of t = 1
    /\ console_errors_of t = []
    /\ unhandled_of t = [].
Proof.
  intros Hf Hne Hc Hq Hj Hs Hm Ht.
  rewrite (delete_answered e w event date resp data _ Hf Hne Hc Hq Hj Hs), Hm, Ht.
  eexists. split; [done |]. split; [reflexivity | done].
Qed.

(** X2: when the prompt of [deleteAppointmentsByDate] is declined, the
    function has only cancelled the submission and asked, with a prompt
    that names the date: no request, no alert, no reload, no log entry,
    and the page is as it was. *)
Theorem deleteAppointmentsByDate_declined
    (e : env) (w : world) (event : dom_event) (date : string) :
  field_holds "deleteDate" (w_dom w) date ->
  date <> "" ->
  user_confirms e (delete_prompt date) = false ->
  exists text t,
    deleteAppointmentsByDate event e w = (Normal tt, w, t)
    /\ t = [PreventDefault event; Confirm text false]
    /\ includes date text = true
    /\ requests_of t = []
    /\ alerts_of t = []
    /\ reloads_of t = 0
    /\ console_errors_of t = [].
Proof.
  intros Hf Hne Hc. do 2 eexists. split; [by apply delete_declined |].
  split; [done |]. split; [| done].
  apply (includes_app "Are you sure you want to delete all appointments for " date "?").
Qed.

(** X3: a server that answers with the JSON value [null] makes the handler
    fail on [data.success]; the failure is caught like a network failure,
    in both flows: the [TypeError] is logged once, the generic alert is the
    only alert, the page is not reloaded and the call returns normally
    (for a cancellation: of an identifier that prints). *)
Theorem null_answer_is_caught (e : env) (w : world) (resp : response) :
  json resp = Fulfilled VNull ->
  (forall appointmentId id,
      to_string appointmentId = Normal id ->
      user_confirms e cancel_prompt = true ->
      network e ("/cancel_appointment/" +:+ id) cancel_init = Fulfilled resp ->
      returns_cleanly (cancelAppointment appointmentId e w)
      /\ console_errors_of (effects_of (cancelAppointment appointmentId e w))
         = [error_log (TypeError "Cannot read properties of null (reading 'success')")]
      /\ alerts_of (effects_of (cancelAppointment appointmentId e w))
         = ["Error cancelling appointment"]
      /\ reloads_of (effects_of (cancelAppointment appointmentId e w)) = 0)
  /\ (forall event date,
         field_holds "deleteDate" (w_dom w) date ->
         date <> "" ->
         user_confirms e (delete_prompt date) = true ->
         network e "/delete_appointments_by_date" (delete_init ("date=" +:+ date))
           = Fulfilled resp ->
         returns_cleanly (deleteAppointmentsByDate event e w)
         /\ console_errors_of (effects_of (deleteAppointmentsByDate event e w))
            = [error_log (TypeError "Cannot read properties of null (reading 'success')")]
         /\ alerts_of (effects_of (deleteAppointmentsByDate event e w))
            = ["Error deleting appointments"]
         /\ reloads_of (effects_of (deleteAppointmentsByDate event e w)) = 0).
Proof.
  intros Hj. split.
  - intros appointmentId id Hid Hc Hn.
    rewrite (cancel_unreadable e w appointmentId id resp VNull _ Hc Hid Hn Hj eq_refl).
    repeat split; try done. by exists tt.
  - intros event date Hf Hne Hc Hq.
    rewrite (delete_unreadable e w event date resp VNull _ Hf Hne Hc Hq Hj eq_refl).
    repeat split; try done. by exists tt.
Qed.

(** X4: an answer without the two fields counts as a refusal whose message
    is missing: in both flows the only alert ends in ["undefined"], the
    page is not reloaded and nothing is logged as an error (for a
    cancellation: of an identifier that prints). *)
Theorem answer_without_fields (e : env) (w : world) (resp : response) (data : value) :
  json resp = Fulfilled data ->
  lacks_both_fields data ->
  (forall appointmentId id,
      to_string appointmentId = Normal id ->
      user_confirms e cancel_prompt = true ->
      network e ("/cancel_appointment/" +:+ id) cancel_init = Fulfilled resp ->
      alerts_of (effects_of (cancelAppointment appointmentId e w))
      = ["Error cancelling appointment: undefined"]
      /\ reloads_of (effects_of (cancelAppointment appointmentId e w)) = 0
      /\ console_errors_of (effects_of (cancelAppointment appointmentId e w)) = [])
  /\ (forall event date,
         field_holds "deleteDate" (w_dom w) date ->
         date <> "" ->
         user_confirms e (delete_prompt date) = true ->
         network e "/delete_appointments_by_date" (delete_init ("date=" +:+ date))
           = Fulfilled resp ->
         alerts_of (effects_of (deleteAppointmentsByDate event e w))
         = ["Error: undefined"]
         /\ reloads_of (effects_of (deleteAppointmentsByDate event e w)) = 0
         /\ console_errors_of (effects_of (deleteAppointmentsByDate event e w)) = []).
Proof.
  intros Hj Hlacks.
  assert (Hs : get data "success" = Normal VUndefined
               /\ get data "message" = Normal VUndefined).
  { destruct data; simpl in *; try done. destruct Hlacks as [-> ->]. done. }
  destruct Hs as [Hs Hm]. split.
  - intros appointmentId id Hid Hc Hn.
    by rewrite (cancel_answered e w appointmentId id resp data _ Hc Hid Hn Hj Hs), Hm.
  - intros event date Hf Hne Hc Hq.
    by rewrite (delete_answered e w event date resp data _ Hf Hne Hc Hq Hj Hs), Hm.
Qed.

(** X5: [success] is tested for truth, not compared with [true]: whatever
    value the answer carries there, the page is reloaded exactly when the
    value is truthy, in both flows (for a cancellation: of an identifier
    that prints; for a deletion: when the message of the answer prints, as
    it is shown before the reload). A non-empty string is truthy, the
    string ["false"] included. *)
Theorem success_is_tested_for_truth
    (e : env) (w : world) (resp : response) (data success : value) :
  json resp = Fulfilled data ->
  get data "success" = Normal success ->
  (forall s, s <> "" -> to_boolean (VString s) = true)
  /\ (forall appointmentId id,
         to_string appointmentId = Normal id ->
         user_confirms e cancel_prompt = true ->
         network e ("/cancel_appointment/" +:+ id) cancel_init = Fulfilled resp ->
         reloads_of (effects_of (cancelAppointment appointmentId e w))
         = if to_boolean success then 1 else 0)
  /\ (forall event date message text,
         get data "message" = Normal message ->
         to_string message = Normal text ->
         field_holds "deleteDate" (w_dom w) date ->
         date <> "" ->
         user_confirms e (delete_prompt date) = true ->
         network e "/delete_appointments_by_date" (delete_init ("date=" +:+ date))
           = Fulfilled resp ->
         reloads_of (effects_of (deleteAppointmentsByDate event e w))
         = if to_boolean success then 1 else 0).
Proof.
  intros Hj Hs. split; [| split].
  - intros s Hne. simpl. by rewrite bool_decide_eq_false_2.
  - intros appointmentId id Hid Hc Hn.
    rewrite (cancel_answered e w appointmentId id resp data _ Hc Hid Hn Hj Hs).
    destruct (to_boolean success); [done |].
    destruct (get data "message") as [message |]; [| done].
    by destruct (to_string message).
  - intros event date message text Hm Ht Hf Hne Hc Hq.
    rewrite (delete_answered e w event date resp data _ Hf Hne Hc Hq Hj Hs), Hm, Ht.
    by destruct (to_boolean success).
Qed.

(** X6: the page is reloaded at most once per call, and only when the user
    accepted the prompt and the server answered with JSON whose [success]
    is truthy, whatever the user, the network and the page are. *)
Theorem reload_only_on_success (e : env) (w : world) :
  (forall appointmentId,
      reloads_of (effects_of (cancelAppointment appointmentId e w)) <= 1
      /\ (reloads_of (effects_of (cancelAppointment appointmentId e w)) = 1 ->
          user_confirms e cancel_prompt = true
          /\ exists id resp data success,
               to_string appointmentId = Normal id
               /\ network e ("/cancel_appointment/" +:+ id) cancel_init = Fulfilled resp
               /\ json resp = Fulfilled data
               /\ get data "success" = Normal success
               /\ to_boolean success = true))
  /\ (forall event,
         reloads_of (effects_of (deleteAppointmentsByDate event e w)) <= 1
         /\ (reloads_of (effects_of (deleteAppointmentsByDate event e w)) = 1 ->
             exists date resp data success,
               field_holds "deleteDate" (w_dom w) date
               /\ user_confirms e (delete_prompt date) = true
               /\ network e "/delete_appointments_by_date"
                    (delete_init ("date=" +:+ date)) = Fulfilled resp
               /\ json resp = Fulfilled data
               /\ get data "success" = Normal success
               /\ to_boolean success = true)).
Proof.
  split.
  - intros appointmentId. cancel_paths e w appointmentId;
      (split; [cbn; lia | intros Hr; try discriminate Hr]).
    split; [done |]. eauto 10.
  - intros event. delete_paths e w event;
      (split; [cbn; lia | intros Hr; try discriminate Hr]).
    eauto 10.
Qed.

(** X7: a call sends at most one request, and none unless the user
    accepted the prompt (for a deletion: the prompt that names the date in
    the input), whatever the user, the network and the page are. *)
Theorem no_request_without_consent (e : env) (w : world) :
  (forall appointmentId,
      length (requests_of (effects_of (cancelAppointment appointmentId e w))) <= 1
      /\ (requests_of (effects_of (cancelAppointment appointmentId e w)) <> [] ->
          user_confirms e cancel_prompt = true))
  /\ (forall event,
         length (requests_of (effects_of (deleteAppointmentsByDate event e w))) <= 1
         /\ (requests_of (effects_of (deleteAppointmentsByDate event e w)) <> [] ->
             exists date,
               field_holds "deleteDate" (w_dom w) date
               /\ date <> ""
               /\ user_confirms e (delete_prompt date) = true)).
Proof.
  split.
  - intros appointmentId. cancel_paths e w appointmentId;
      (split; [cbn; lia | intros Hr; try done]).
  - intros event. delete_paths e w event;
      (split; [cbn; lia | intros Hr; try done]); eauto.
Qed.

(** X8: a call whose request settles (it is answered or it fails) ends in
    exactly one alert once the prompt is accepted, and in none when the
    prompt is declined (for a cancellation: of an identifier that
    prints). For a deletion on a page that has the [deleteDate] element
    there is never more than one alert, an empty date giving the
    validation alert, and none only when the prompt for a non-empty date
    was declined or the request never settles. *)
Theorem one_alert_unless_declined (e : env) (w : world) :
  (forall appointmentId id,
      to_string appointmentId = Normal id ->
      ~ hangs e ("/cancel_appointment/" +:+ id) cancel_init ->
      length (alerts_of (effects_of (cancelAppointment appointmentId e w)))
      = if user_confirms e cancel_prompt then 1 else 0)
  /\ (forall event,
         is_Some (element_by_id "deleteDate" (w_dom w)) ->
         length (alerts_of (effects_of (deleteAppointmentsByDate event e w))) <= 1
         /\ (alerts_of (effects_of (deleteAppointmentsByDate event e w)) = [] ->
             exists date,
               field_holds "deleteDate" (w_dom w) date
               /\ date <> ""
               /\ (user_confirms e (delete_prompt date) = false
                   \/ hangs e "/delete_appointments_by_date"
                        (delete_init ("date=" +:+ date))))).
Proof.
  split.
  - intros appointmentId id0 Hid0 Hsettles.
    cancel_paths e w appointmentId; try done;
      try (rewrite Hid0 in *; simplify_eq; exfalso; apply Hsettles;
           (by left) || (right; by eauto)).
  - intros event [i0 Hsome]. delete_paths e w event;
      (split; [cbn; lia | intros Hr; try done]);
      eexists; (split; [eassumption |]); (split; [done |]);
      first [ by left | right; by left | right; right; by eauto ].
Qed.

(** X9: on every path that does not end in a reload, [cancelAppointment]
    and [deleteAppointmentsByDate] (its throwing path included) leave the
    page as it is: they write neither to the document, nor to the
    location, nor to the timer queue. [showAppointmentDetails] never
    reloads and leaves the page as it is; it talks to the console only. *)
Theorem page_is_left_alone (e : env) (w : world) :
  (forall appointmentId,
      reloads_of (effects_of (cancelAppointment appointmentId e w)) = 0 ->
      page_of (cancelAppointment appointmentId e w) = w)
  /\ (forall event,
         reloads_of (effects_of (deleteAppointmentsByDate event e w)) = 0 ->
         page_of (deleteAppointmentsByDate event e w) = w)
  /\ (forall appointmentId,
         showAppointmentDetails appointmentId e w
         = (Normal tt, w,
            [ConsoleLog [LogValue (VString "Show appointment details for:");
                         LogValue appointmentId]])).
Proof.
  split; [| split].
  - intros appointmentId. by cancel_paths e w appointmentId.
  - intros event. by delete_paths e w event.
  - done.
Qed.

(** X10: [deleteAppointmentsByDate] cancels the submission of the form
    before anything else, on every page and whatever follows: also when no
    date is selected, when the user declines, and when the date input is
    missing and the function throws. *)
Theorem submission_is_always_prevented (e : env) (w : world) (event : dom_event) :
  exists rest,
    effects_of (deleteAppointmentsByDate event e w) = PreventDefault event :: rest
    /\ Forall (fun ev => match ev with PreventDefault _ => False | _ => True end) rest.
Proof.
  delete_paths e w event; eexists; (split; [reflexivity |]);
    repeat constructor.
Qed.

(** X11: when the element with the id [deleteDate] has no [value] (it is
    not a form control), the function behaves as for an empty date: the
    validation alert, no prompt, no request. *)
Theorem deleteAppointmentsByDate_without_value
    (e : env) (w : world) (event : dom_event) (i : nat) (n : node) :
  element_by_id "deleteDate" (w_dom w) = Some i ->
  w_dom w !! i = Some n ->
  node_value n = None ->
  exists t,
    deleteAppointmentsByDate event e w = (Normal tt, w, t)
    /\ alerts_of t = ["Please select a date"]
    /\ prompts_of t = []
    /\ requests_of t = []
    /\ reloads_of t = 0.
Proof.
  intros Hel Hn Hv. eexists.
  split; [apply (delete_without_value e w event i Hel); by rewrite Hn | done].
Qed.

(** ** More on the alerts *)

Local Abbreviation fade_class := "alert-fade-out".
Local Abbreviation alert_selector := ["alert-success"; "alert-danger"].
Local Abbreviation fades T ks := ((fun k => (T, FadeOut k)) <$> ks).
Local Abbreviation removals T ks := ((fun k => (T, RemoveAlert k)) <$> ks).

Lemma alter_all_app (f : node -> node) (ks1 ks2 : list nat) (d : dom) :
  alter_all f (ks1 ++ ks2) d = alter_all f ks2 (alter_all f ks1 d).
Proof. unfold alter_all. apply foldl_app. Qed.

Lemma alter_all_twice (f : node -> node) (ks : list nat) (d : dom) :
  (forall n, f (f n) = f n) ->
  alter_all f (ks ++ ks) d = alter_all f ks d.
Proof.
  intros Hidem. apply list_eq. intros i.
  rewrite !alter_all_lookup by done.
  assert (Hiff : i ∈ ks ++ ks <-> i ∈ ks) by (rewrite elem_of_app; tauto).
  by rewrite (bool_decide_ext _ _ Hiff).
Qed.

Lemma dismissed_lookup (ks : list nat) (d : dom) (j : nat) :
  alter_all detach ks (alter_all (add_class fade_class) ks d) !! j
  = if bool_decide (j ∈ ks)
    then (fun n => detach (add_class fade_class n)) <$> d !! j
    else d !! j.
Proof.
  rewrite (alter_all_lookup _ _ _ _ detach_idemp).
  rewrite (alter_all_lookup _ _ _ _ (add_class_idemp _)).
  case_bool_decide; [| done]. by destruct (d !! j).
Qed.

(** The page [dt] ms after a batch of outer callbacks for the nodes [ks]
    was queued at time [t0], with nothing else pending. [ks] may list a
    node more than once. *)
Lemma fade_then_remove
    (e : env) (w0 : world) (ks : list nat) (fuel : nat) (t0 dt : N) :
  w_timers w0 = fades (t0 + 1500)%N ks ->
  (w_now w0 <= t0)%N ->
  2 * length ks <= fuel ->
  exists w1,
    event_loop fuel (t0 + dt) e w0 = Some (w1, [])
    /\ w_dom w1 =
       (if (dt <? 1500)%N then w_dom w0
        else if (dt <? 2000)%N then alter_all (add_class fade_class) ks (w_dom w0)
        else alter_all detach ks (alter_all (add_class fade_class) ks (w_dom w0)))
    /\ w_timers w1 =
       (if (dt <? 1500)%N then fades (t0 + 1500)%N ks
        else if (dt <? 2000)%N then removals (t0 + 1500 + 500)%N ks
        else []).
Proof.
  intros Ht Hnow Hfuel.
  destruct (N.ltb_spec dt 1500) as [Hearly | Hfade].
  - eexists. split.
    + apply event_loop_idle. rewrite Ht.
      intros x (k & -> & _)%list_elem_of_fmap. simpl. lia.
    + done.
  - replace fuel with (length ks + (fuel - length ks)) by lia.
    destruct (event_loop_fades (fuel - length ks) (t0 + dt) (t0 + 1500) e ks
                ltac:(lia) w0 [])
      as (wf & Hrun & Hdom & Htimers & _);
      [by rewrite app_nil_r | by intros x ?%elem_of_nil | lia |].
    rewrite Hrun. simpl in Htimers.
    destruct (N.ltb_spec dt 2000) as [Hkept | Hgone].
    + eexists. split.
      * apply event_loop_idle. rewrite Htimers.
        intros x (k & -> & _)%list_elem_of_fmap. simpl. lia.
      * done.
    + replace (fuel - length ks)
        with (length ks + (fuel - length ks - length ks)) by lia.
      destruct (event_loop_removes (fuel - length ks - length ks)
                  (t0 + dt) (t0 + 1500 + 500) e ks ltac:(lia) wf [])
        as (wr & Hrun' & Hdom' & Htimers');
        [by rewrite app_nil_r | by intros x ?%elem_of_nil |].
      rewrite Hrun'. eexists. split.
      * apply event_loop_idle. rewrite Htimers'. by intros x ?%elem_of_nil.
      * simpl. by rewrite Hdom', Hdom.
Qed.

(** Two calls in a row queue the batch twice. *)
Lemma autoDismissAlerts_twice_run (e : env) (w : world) :
  w_timers w = [] ->
  (autoDismissAlerts ;;; autoDismissAlerts) e w =
  (Normal tt,
   set_timers (fades (w_now w + 1500)%N
                 (select_all alert_selector (w_dom w)
                  ++ select_all alert_selector (w_dom w))) w,
   []).
Proof.
  intros Hnone. unfold bind. rewrite !autoDismissAlerts_run. simpl.
  by rewrite Hnone, fmap_app.
Qed.

(** X12: on a page without a success or error alert in the document,
    [autoDismissAlerts] does nothing at all: no timer is queued and the
    page is as it was. *)
Theorem autoDismissAlerts_without_alerts (e : env) (w : world) :
  select_all alert_selector (w_dom w) = [] ->
  autoDismissAlerts e w = (Normal tt, w, []).
Proof.
  intros Hnone. rewrite autoDismissAlerts_run, Hnone. simpl.
  rewrite app_nil_r. by destruct w.
Qed.

(** X13: calling [autoDismissAlerts] twice in a row (two ready handlers)
    changes nothing for the document: at every later time it is the
    document a single call gives. The second batch of callbacks finds the
    class present and the alerts detached. *)
Theorem autoDismissAlerts_twice (e : env) (w : world) (fuel : nat) (dt : N) :
  w_timers w = [] ->
  4 * length (select_all alert_selector (w_dom w)) <= fuel ->
  exists once twice,
    autoDismissAlerts e w = (Normal tt, once, [])
    /\ (autoDismissAlerts ;;; autoDismissAlerts) e w = (Normal tt, twice, [])
    /\ exists w1 w2,
         event_loop fuel (w_now w + dt) e once = Some (w1, [])
         /\ event_loop fuel (w_now w + dt) e twice = Some (w2, [])
         /\ w_dom w2 = w_dom w1.
Proof.
  intros Hnone Hfuel.
  set (alerts := select_all alert_selector (w_dom w)) in *.
  do 2 eexists. split; [apply autoDismissAlerts_run |].
  split; [by apply autoDismissAlerts_twice_run |].
  fold alerts. rewrite Hnone. simpl app.
  destruct (fade_then_remove e (set_timers (fades (w_now w + 1500)%N alerts) w)
              alerts fuel (w_now w) dt eq_refl)
    as (w1 & Hrun1 & Hdom1 & _); [simpl; lia | lia |].
  destruct (fade_then_remove e
              (set_timers (fades (w_now w + 1500)%N (alerts ++ alerts)) w)
              (alerts ++ alerts) fuel (w_now w) dt eq_refl)
    as (w2 & Hrun2 & Hdom2 & _); [simpl; lia | rewrite length_app; lia |].
  exists w1, w2. split; [done |]. split; [done |].
  rewrite Hdom1, Hdom2. simpl.
  rewrite !alter_all_twice; [done | apply detach_idemp | apply add_class_idemp].
Qed.

(** X14: the timers do not pile up: at every time after the call at most
    one timer per alert is pending, and from 2000 ms on none is. *)
Theorem autoDismissAlerts_timers_drain (e : env) (w : world) (fuel : nat) (dt : N) :
  w_timers w = [] ->
  2 * length (select_all alert_selector (w_dom w)) <= fuel ->
  exists w0 w1,
    autoDismissAlerts e w = (Normal tt, w0, [])
    /\ event_loop fuel (w_now w + dt) e w0 = Some (w1, [])
    /\ length (w_timers w1) <= length (select_all alert_selector (w_dom w))
    /\ ((2000 <= dt)%N -> w_timers w1 = []).
Proof.
  intros Hnone Hfuel.
  set (alerts := select_all alert_selector (w_dom w)) in *.
  eexists. 
  destruct (fade_then_remove e (set_timers (fades (w_now w + 1500)%N alerts) w)
              alerts fuel (w_now w) dt eq_refl)
    as (w1 & Hrun1 & _ & Htimers); [simpl; lia | lia |].
  exists w1. split; [apply autoDismissAlerts_run |].
  fold alerts. rewrite Hnone. simpl app. split; [exact Hrun1 |].
  rewrite Htimers. split.
  - destruct (dt <? 1500)%N; [by rewrite length_fmap |].
    destruct (dt <? 2000)%N; [by rewrite length_fmap | simpl; lia].
  - intros Hgone.
    destruct (N.ltb_spec dt 1500); [lia |]. destruct (N.ltb_spec dt 2000); [lia | done].
Qed.

Lemma dismissed_alert_disconnected (ks : list nat) (d : dom) (i : nat) (fuel : nat) :
  i ∈ ks ->
  is_connected fuel (alter_all detach ks (alter_all (add_class fade_class) ks d)) i = false.
Proof.
  intros Hin. destruct fuel as [|fuel]; simpl; [done |].
  rewrite dismissed_lookup, bool_decide_eq_true_2 by done.
  by destruct (d !! i).
Qed.

Lemma dismissed_content_disconnected (ks : list nat) (d : dom) (i j : nat) :
  i ∈ ks ->
  ancestor d i j ->
  forall fuel,
    is_connected fuel (alter_all detach ks (alter_all (add_class fade_class) ks d)) j = false.
Proof.
  intros Hin Hanc.
  induction Hanc as [j n Hj Hp | j p n Hj Hp Hanc IH]; intros fuel;
    (destruct fuel as [|fuel]; simpl; [done |]);
    rewrite dismissed_lookup, Hj; case_bool_decide; simpl; try done; rewrite Hp.
  - by apply dismissed_alert_disconnected.
  - apply IH.
Qed.

(** X15: what hangs under an alert leaves the document with it: from
    2000 ms on, every node that has a success or error alert of the
    document on its parent chain is out of the document (a close button
    inside an alert, for one), although the script never writes to it. *)
Theorem alert_content_is_dismissed
    (e : env) (w : world) (fuel : nat) (dt : N) (i j : nat) (n : node) :
  w_timers w = [] ->
  2 * length (select_all alert_selector (w_dom w)) <= fuel ->
  (2000 <= dt)%N ->
  w_dom w !! i = Some n ->
  in_document (w_dom w) i = true ->
  has_class "alert-success" n || has_class "alert-danger" n = true ->
  ancestor (w_dom w) i j ->
  exists w0 w1,
    autoDismissAlerts e w = (Normal tt, w0, [])
    /\ event_loop fuel (w_now w + dt) e w0 = Some (w1, [])
    /\ in_document (w_dom w1) j = false.
Proof.
  intros Hnone Hfuel Hgone Hi Hin Hcls Hanc.
  set (alerts := select_all alert_selector (w_dom w)) in *.
  assert (Hmatched : i ∈ alerts).
  { apply select_all_spec. exists n. by rewrite matches_alert. }
  eexists.
  destruct (fade_then_remove e (set_timers (fades (w_now w + 1500)%N alerts) w)
              alerts fuel (w_now w) dt eq_refl)
    as (w1 & Hrun1 & Hdom & _); [simpl; lia | lia |].
  exists w1. split; [apply autoDismissAlerts_run |].
  fold alerts. rewrite Hnone. simpl app. split; [exact Hrun1 |].
  rewrite Hdom.
  destruct (N.ltb_spec dt 1500); [lia |]. destruct (N.ltb_spec dt 2000); [lia |].
  by apply (dismissed_content_disconnected alerts (w_dom w) i j).
Qed.

(** ** Navigation *)

(** The two navigation shortcuts only assign the location: the
    document and the timers are untouched, nothing is shown, asked or
    sent, whatever the user and the network are; of two navigations in a
    row the last one decides where the page goes. *)
Lemma navigation_shortcuts (e : env) (w : world) :
  showPatientsList e w = (Normal tt, set_href "/doctor/patients" w, [])
  /\ consultPatients e w = (Normal tt, set_href "/doctor/notifications" w, [])
  /\ (showPatientsList ;;; consultPatients) e w = consultPatients e w
  /\ (consultPatients ;;; showPatientsList) e w = showPatientsList e w
  /\ (consultPatients ;;; consultPatients) e w = consultPatients e w.
Proof. done. Qed.

(** ** Prompts and log entries *)

(** X16: the user is asked at most once per call. [cancelAppointment]
    always asks, with its fixed text; [deleteAppointmentsByDate] asks only
    when the input holds a non-empty date, and then with the text that
    names this date. *)
Theorem prompted_once (e : env) (w : world) :
  (forall appointmentId,
      prompts_of (effects_of (cancelAppointment appointmentId e w)) = [cancel_prompt])
  /\ (forall event,
         prompts_of (effects_of (deleteAppointmentsByDate event e w)) = []
         \/ exists date,
              field_holds "deleteDate" (w_dom w) date
              /\ date <> ""
              /\ prompts_of (effects_of (deleteAppointmentsByDate event e w))
                 = [delete_prompt date]).
Proof.
  split.
  - intros appointmentId. by cancel_paths e w appointmentId.
  - intros event. delete_paths e w event; try (by left); right; eauto.
Qed.

(** X17: an error is written to the console at most once per call, and a
    call that logs one has sent its request, shows the generic alert of
    its flow as its only alert and does not reload the page. *)
Theorem logged_error_means_generic_alert (e : env) (w : world) :
  (forall appointmentId,
      length (console_errors_of (effects_of (cancelAppointment appointmentId e w))) <= 1
      /\ (console_errors_of (effects_of (cancelAppointment appointmentId e w)) <> [] ->
          length (requests_of (effects_of (cancelAppointment appointmentId e w))) = 1
          /\ alerts_of (effects_of (cancelAppointment appointmentId e w))
             = ["Error cancelling appointment"]
          /\ reloads_of (effects_of (cancelAppointment appointmentId e w)) = 0))
  /\ (forall event,
         length (console_errors_of (effects_of (deleteAppointmentsByDate event e w))) <= 1
         /\ (console_errors_of (effects_of (deleteAppointmentsByDate event e w)) <> [] ->
             length (requests_of (effects_of (deleteAppointmentsByDate event e w))) = 1
             /\ alerts_of (effects_of (deleteAppointmentsByDate event e w))
                = ["Error deleting appointments"]
             /\ reloads_of (effects_of (deleteAppointmentsByDate event e w)) = 0)).
Proof.
  split.
  - intros appointmentId. cancel_paths e w appointmentId;
      (split; [cbn; lia | intros Hr; try done]).
  - intros event. delete_paths e w event;
      (split; [cbn; lia | intros Hr; try done]).
Qed.

(** X18: a message of the answer that cannot be printed (an object with a
    [toString] property of its own) makes the handler throw where it
    builds the alert; the catch handler takes over, in both flows and
    whether [success] is truthy or not: the error is logged once, the
    generic alert is the only alert, and the page is not reloaded, a
    deletion the server reports as done included. *)
Theorem unprintable_message_is_caught
    (e : env) (w : world) (resp : response) (data success message : value)
    (x : js_error) :
  json resp = Fulfilled data ->
  get data "success" = Normal success ->
  get data "message" = Normal message ->
  to_string message = Throw x ->
  (forall appointmentId id,
      to_string appointmentId = Normal id ->
      user_confirms e cancel_prompt = true ->
      network e ("/cancel_appointment/" +:+ id) cancel_init = Fulfilled resp ->
      to_boolean success = false ->
      returns_cleanly (cancelAppointment appointmentId e w)
      /\ console_errors_of (effects_of (cancelAppointment appointmentId e w))
         = [error_log x]
      /\ alerts_of (effects_of (cancelAppointment appointmentId e w))
         = ["Error cancelling appointment"]
      /\ reloads_of (effects_of (cancelAppointment appointmentId e w)) = 0)
  /\ (forall event date,
         field_holds "deleteDate" (w_dom w) date ->
         date <> "" ->
         user_confirms e (delete_prompt date) = true ->
         network e "/delete_appointments_by_date" (delete_init ("date=" +:+ date))
           = Fulfilled resp ->
         returns_cleanly (deleteAppointmentsByDate event e w)
         /\ console_errors_of (effects_of (deleteAppointmentsByDate event e w))
            = [error_log x]
         /\ alerts_of (effects_of (deleteAppointmentsByDate event e w))
            = ["Error deleting appointments"]
         /\ reloads_of (effects_of (deleteAppointmentsByDate event e w)) = 0).
Proof.
  intros Hj Hs Hm Ht. split.
  - intros appointmentId id Hid Hc Hn Hb.
    rewrite (cancel_answered e w appointmentId id resp data _ Hc Hid Hn Hj Hs), Hb, Hm, Ht.
    repeat split; try done. by exists tt.
  - intros event date Hf Hne Hc Hq.
    rewrite (delete_answered e w event date resp data _ Hf Hne Hc Hq Hj Hs), Hm, Ht.
    repeat split; try done. by exists tt.
Qed.

End Script.

Arguments VUndefined {number}.
Arguments VNull {number}.
Arguments VBool {number} b.
Arguments VNumber {number} n.
Arguments VString {number} s.
Arguments VArray {number} items.
Arguments VObject {number} props.
Arguments Confirm {number} text answer.
Arguments Alert {number} text.
Arguments Fetch {number} url init.
Arguments ConsoleError {number} args.
Arguments ConsoleLog {number} args.
Arguments Reload {number}.
Arguments PreventDefault {number} ev.
Arguments UnhandledRejection {number} reason.
Arguments UncaughtError {number} e.
Arguments LogValue {number} v.
Arguments LogError {number} e.
Arguments scenario {number} answer settles.
Arguments answers {number} data.
Arguments offline {number}.
Arguments not_json {number}.
Arguments ok_data {number}.
Arguments silent {number}.
Arguments unprintable {number}.
Arguments refused_data {number}.

(** * The script on integers *)


Abbreviation cancelAppointmentZ := (cancelAppointment Z int_to_boolean int_to_string).
Abbreviation deleteAppointmentsByDateZ :=
  (deleteAppointmentsByDate Z int_to_boolean int_to_string).

(** ** The theorems at work *)

Lemma cancelAppointment_success_example :
  exists t,
    outcome_of Z (cancelAppointmentZ (VNumber 17%Z) (scenario true (answers ok_data))
                    dashboard_page) = Normal tt
    /\ effects_of Z (cancelAppointmentZ (VNumber 17%Z) (scenario true (answers ok_data))
                       dashboard_page) = t
    /\ t = [Confirm "Are you sure you want to cancel this appointment?" true;
            Fetch "/cancel_appointment/17"
              {| init_method := "POST";
                 init_headers := [("Content-Type", "application/json")];
                 init_body := None |};
            Alert "Appointment cancelled successfully";
            Reload]
    /\ alerts_of Z t = ["Appointment cancelled successfully"]
    /\ reloads_of Z t = 1
    /\ console_errors_of Z t = []
    /\ unhandled_of Z t = [].
Proof.
  apply (cancelAppointment_success Z int_to_boolean int_to_string
           (scenario true (answers ok_data)) dashboard_page (VNumber 17%Z) "17"
           {| json := Fulfilled ok_data |} ok_data);
    reflexivity.
Defined.

Lemma cancelAppointment_declined_example :
  exists t,
    cancelAppointmentZ (VNumber 17%Z) (scenario false (answers ok_data)) dashboard_page
    = (Normal tt, dashboard_page, t)
    /\ t = [Confirm "Are you sure you want to cancel this appointment?" false]
    /\ requests_of Z t = []
    /\ alerts_of Z t = []
    /\ reloads_of Z t = 0
    /\ console_errors_of Z t = [].
Proof.
  apply (cancelAppointment_declined Z int_to_boolean int_to_string
           (scenario false (answers ok_data)) dashboard_page (VNumber 17%Z)).
  reflexivity.
Defined.

Lemma cancelAppointment_request_example :
  exists url init,
    requests_of Z (effects_of Z (cancelAppointmentZ (VString "a/b?c") (scenario true offline)
                                   dashboard_page))
    = [(url, init)]
    /\ url = "/cancel_appointment/a/b?c"
    /\ init_method init = "POST"
    /\ init_headers init = [("Content-Type", "application/json")]
    /\ init_body init = None.
Proof.
  apply (cancelAppointment_request Z int_to_boolean int_to_string
           (scenario true offline) dashboard_page (VString "a/b?c") "a/b?c");
    reflexivity.
Defined.

Lemma date_field_of_notifications_page (date : string) :
  field_holds "deleteDate" (w_dom (notifications_page date)) date.
Proof. exists 5, (Build_node "deleteDate" ["form-control"] (Some date) (ChildOf 4)). done. Qed.

Lemma deleteAppointmentsByDate_empty_example :
  exists t,
    deleteAppointmentsByDateZ submit (scenario true (answers ok_data)) (notifications_page "")
    = (Normal tt, notifications_page "", t)
    /\ alerts_of Z t = ["Please select a date"]
    /\ prompts_of Z t = []
    /\ requests_of Z t = []
    /\ reloads_of Z t = 0.
Proof.
  apply (deleteAppointmentsByDate_empty Z int_to_boolean int_to_string
           (scenario true (answers ok_data)) (notifications_page "") submit).
  apply date_field_of_notifications_page.
Defined.

Lemma deleteAppointmentsByDate_request_example :
  exists init,
    requests_of Z (effects_of Z (deleteAppointmentsByDateZ submit (scenario true offline)
                                   (notifications_page "2024-01-01")))
    = [("/delete_appointments_by_date", init)]
    /\ init_method init = "POST"
    /\ init_headers init = [("Content-Type", "application/x-www-form-urlencoded")]
    /\ init_body init = Some "date=2024-01-01".
Proof.
  apply (deleteAppointmentsByDate_request Z int_to_boolean int_to_string
           (scenario true offline) (notifications_page "2024-01-01") submit).
  - apply date_field_of_notifications_page.
  - reflexivity.
Defined.

Lemma server_failure_is_alerted_example :
  (exists text,
      alerts_of Z (effects_of Z (cancelAppointmentZ (VNumber 17%Z)
                                   (scenario true (answers refused_data)) dashboard_page))
      = [text]
      /\ includes "Appointment not found" text = true
      /\ reloads_of Z (effects_of Z (cancelAppointmentZ (VNumber 17%Z)
                                       (scenario true (answers refused_data))
                                       dashboard_page)) = 0)
  /\ (exists text,
         alerts_of Z (effects_of Z (deleteAppointmentsByDateZ submit
                                      (scenario true (answers refused_data))
                                      (notifications_page "2024-01-01")))
         = [text]
         /\ includes "Appointment not found" text = true
         /\ reloads_of Z (effects_of Z (deleteAppointmentsByDateZ submit
                                          (scenario true (answers refused_data))
                                          (notifications_page "2024-01-01"))) = 0).
Proof.
  split.
  - apply (proj1 (server_failure_is_alerted Z int_to_boolean int_to_string
                    (scenario true (answers refused_data)) dashboard_page
                    {| json := Fulfilled refused_data |} refused_data
                    "Appointment not found" eq_refl eq_refl eq_refl)
             (VNumber 17%Z) "17");
      reflexivity.
  - apply (proj2 (server_failure_is_alerted Z int_to_boolean int_to_string
                    (scenario true (answers refused_data))
                    (notifications_page "2024-01-01")
                    {| json := Fulfilled refused_data |} refused_data
                    "Appointment not found" eq_refl eq_refl eq_refl)
             submit "2024-01-01").
    + apply date_field_of_notifications_page.
    + discriminate.
    + reflexivity.
    + reflexivity.
Defined.

Lemma request_failure_is_logged_and_alerted_example :
  (returns_cleanly Z (cancelAppointmentZ (VNumber 17%Z) (scenario true offline) dashboard_page)
   /\ console_errors_of Z (effects_of Z (cancelAppointmentZ (VNumber 17%Z)
                                           (scenario true offline) dashboard_page))
      = [[LogValue (VString "Error:"); LogError (TypeError "Failed to fetch")]]
   /\ alerts_of Z (effects_of Z (cancelAppointmentZ (VNumber 17%Z)
                                   (scenario true offline) dashboard_page))
      = ["Error cancelling appointment"]
   /\ reloads_of Z (effects_of Z (cancelAppointmentZ (VNumber 17%Z)
                                    (scenario true offline) dashboard_page)) = 0)
  /\ (returns_cleanly Z (deleteAppointmentsByDateZ submit (scenario true not_json)
                           (notifications_page "2024-01-01"))
      /\ console_errors_of Z (effects_of Z (deleteAppointmentsByDateZ submit
                                              (scenario true not_json)
                                              (notifications_page "2024-01-01")))
         = [[LogValue (VString "Error:");
             LogError {| err_name := "SyntaxError";
                         err_message := "Unexpected token '<'" |}]]
      /\ alerts_of Z (effects_of Z (deleteAppointmentsByDateZ submit
                                      (scenario true not_json)
                                      (notifications_page "2024-01-01")))
         = ["Error deleting appointments"]
      /\ reloads_of Z (effects_of Z (deleteAppointmentsByDateZ submit
                                       (scenario true not_json)
                                       (notifications_page "2024-01-01"))) = 0).
Proof.
  split.
  - apply (proj1 (request_failure_is_logged_and_alerted Z int_to_boolean int_to_string
                    (scenario true offline) dashboard_page
                    (TypeError "Failed to fetch"))
             (VNumber 17%Z) "17").
    + reflexivity.
    + reflexivity.
    + left. reflexivity.
  - apply (proj2 (request_failure_is_logged_and_alerted Z int_to_boolean int_to_string
                    (scenario true not_json) (notifications_page "2024-01-01")
                    {| err_name := "SyntaxError";
                       err_message := "Unexpected token '<'" |})
             submit "2024-01-01").
    + apply date_field_of_notifications_page.
    + discriminate.
    + reflexivity.
    + right. eexists. split; reflexivity.
Defined.

Lemma requests_are_not_encoded_example :
  (exists init,
      requests_of Z (effects_of Z (deleteAppointmentsByDateZ submit (scenario true offline)
                                     (notifications_page "2024-01-01&all=1")))
      = [("/delete_appointments_by_date", init)]
      /\ init_body init = Some "date=2024-01-01&all=1"
      /\ occurrences "&" "date=2024-01-01&all=1" = 1
      /\ occurrences "=" "date=2024-01-01&all=1" = 2)
  /\ (exists url init,
         requests_of Z (effects_of Z (cancelAppointmentZ (VString "17/../3?x=1")
                                        (scenario true offline) dashboard_page))
         = [(url, init)]
         /\ url = "/cancel_appointment/17/../3?x=1").
Proof.
  split.
  - destruct (proj1 (requests_are_not_encoded Z int_to_boolean int_to_string
                       (scenario true offline) (notifications_page "2024-01-01&all=1"))
                submit "2024-01-01&all=1")
      as (init & Hreq & Hbody & Hamp & Heq).
    + apply date_field_of_notifications_page.
    + discriminate.
    + reflexivity.
    + exists init. repeat split; [exact Hreq | exact Hbody].
  - destruct (proj2 (requests_are_not_encoded Z int_to_boolean int_to_string
                       (scenario true offline) dashboard_page)
                (VString "17/../3?x=1") "17/../3?x=1" eq_refl eq_refl)
      as (url & init & Hreq & Hurl & _).
    exists url, init. split; [exact Hreq | exact Hurl].
Defined.



Lemma autoDismissAlerts_timeline_example :
  (exists w0,
      autoDismissAlerts Z (scenario true offline) (notifications_page "")
      = (Normal tt, w0, [])
      /\ exists w1,
           event_loop Z 4 1700 (scenario true offline) w0 = Some (w1, [])
           /\ node_classes <$> w_dom w1 !! 0
              = Some ["alert"; "alert-success"; "alert-fade-out"]
           /\ node_classes <$> w_dom w1 !! 1
              = Some ["alert"; "alert-danger"; "alert-fade-out"]
           /\ in_document (w_dom w1) 0 = true
           /\ in_document (w_dom w1) 1 = true
           /\ w_dom w1 !! 3 = w_dom (notifications_page "") !! 3)
  /\ (exists w0,
         autoDismissAlerts Z (scenario true offline) (notifications_page "")
         = (Normal tt, w0, [])
         /\ exists w1,
              event_loop Z 4 2000 (scenario true offline) w0 = Some (w1, [])
              /\ in_document (w_dom w1) 0 = false
              /\ in_document (w_dom w1) 1 = false
              /\ w_dom w1 !! 3 = w_dom (notifications_page "") !! 3
              /\ w_dom w1 !! 5 = w_dom (notifications_page "") !! 5).
Proof.
  split.
  - destruct (autoDismissAlerts_timeline Z (scenario true offline) (notifications_page "")
                4 1700 eq_refl)
      as (w0 & Hrun & Hdom & w1 & Hloop & Hlen & _ & Hnodes).
    + vm_compute. lia.
    + exists w0. split; [exact Hrun |]. exists w1. split; [exact Hloop |].
      destruct (proj1 (Hnodes 0 _ eq_refl)) as (n0 & Hn0 & -> & _ & _ & _ & Hin0);
        [lia |].
      destruct (proj1 (Hnodes 1 _ eq_refl)) as (n1 & Hn1 & -> & _ & _ & _ & Hin1);
        [lia |].
      split; [by rewrite Hn0 |]. split; [by rewrite Hn1 |].
      split; [exact Hin0 |]. split; [exact Hin1 |].
      apply (Hnodes 3 _ eq_refl).
  - destruct (autoDismissAlerts_timeline Z (scenario true offline) (notifications_page "")
                4 2000 eq_refl)
      as (w0 & Hrun & Hdom & w1 & Hloop & Hlen & _ & Hnodes).
    + vm_compute. lia.
    + exists w0. split; [exact Hrun |]. exists w1. split; [exact Hloop |].
      destruct (proj2 (Hnodes 0 _ eq_refl)) as (n0 & _ & _ & _ & _ & Hout0);
        [lia |].
      destruct (proj2 (Hnodes 1 _ eq_refl)) as (n1 & _ & _ & _ & _ & Hout1);
        [lia |].
      split; [exact Hout0 |]. split; [exact Hout1 |].
      split; [apply (Hnodes 3 _ eq_refl) | apply (Hnodes 5 _ eq_refl)].
Defined.

(** ** The further properties at work *)

Lemma deleteAppointmentsByDate_success_example :
  exists t,
    effects_of Z (deleteAppointmentsByDateZ submit
                    (scenario true
                       (answers (VObject [("success", VBool true);
                                          ("message", VString "3 appointments deleted")])))
                    (notifications_page "2024-01-01"))
    = t
    /\ alerts_of Z t = ["3 appointments deleted"]
    /\ reloads_of Z t = 1.
Proof.
  destruct (deleteAppointmentsByDate_success Z int_to_boolean int_to_string
              (scenario true (answers (VObject [("success", VBool true);
                                                ("message", VString "3 appointments deleted")])))
              (notifications_page "2024-01-01") submit "2024-01-01"
              {| json := Fulfilled (VObject [("success", VBool true);
                                             ("message", VString "3 appointments deleted")]) |}
              (VObject [("success", VBool true);
                        ("message", VString "3 appointments deleted")])
              (VString "3 appointments deleted") "3 appointments deleted"
              (date_field_of_notifications_page "2024-01-01"))
    as (t & _ & Hrun & _ & Halerts & Hreloads & _);
    [discriminate | reflexivity | reflexivity | reflexivity | reflexivity | reflexivity
     | reflexivity |].
  exists t. split; [exact Hrun |]. split; [exact Halerts | exact Hreloads].
Defined.

Lemma deleteAppointmentsByDate_declined_example :
  exists text t,
    deleteAppointmentsByDateZ submit (scenario false offline) (notifications_page "2024-01-01")
    = (Normal tt, notifications_page "2024-01-01", t)
    /\ t = [PreventDefault submit; Confirm text false]
    /\ includes "2024-01-01" text = true
    /\ requests_of Z t = []
    /\ alerts_of Z t = []
    /\ reloads_of Z t = 0
    /\ console_errors_of Z t = [].
Proof.
  apply (deleteAppointmentsByDate_declined Z int_to_boolean int_to_string
           (scenario false offline) (notifications_page "2024-01-01") submit "2024-01-01"
           (date_field_of_notifications_page "2024-01-01"));
    [discriminate | reflexivity].
Defined.

Lemma null_answer_is_caught_example :
  alerts_of Z (effects_of Z (cancelAppointmentZ (VNumber 17%Z)
                               (scenario true (answers VNull)) dashboard_page))
  = ["Error cancelling appointment"]
  /\ alerts_of Z (effects_of Z (deleteAppointmentsByDateZ submit
                                  (scenario true (answers VNull))
                                  (notifications_page "2024-01-01")))
     = ["Error deleting appointments"].
Proof.
  split.
  - apply (proj1 (null_answer_is_caught Z int_to_boolean int_to_string
                    (scenario true (answers VNull)) dashboard_page
                    {| json := Fulfilled VNull |} eq_refl)
             (VNumber 17%Z) "17" eq_refl eq_refl eq_refl).
  - apply (proj2 (null_answer_is_caught Z int_to_boolean int_to_string
                    (scenario true (answers VNull)) (notifications_page "2024-01-01")
                    {| json := Fulfilled VNull |} eq_refl)
             submit "2024-01-01" (date_field_of_notifications_page "2024-01-01")).
    + discriminate.
    + reflexivity.
    + reflexivity.
Defined.

Lemma answer_without_fields_example :
  alerts_of Z (effects_of Z (cancelAppointmentZ (VNumber 17%Z)
                               (scenario true (answers (VArray []))) dashboard_page))
  = ["Error cancelling appointment: undefined"]
  /\ alerts_of Z (effects_of Z (deleteAppointmentsByDateZ submit
                                  (scenario true (answers (VObject [("ok", VBool true)])))
                                  (notifications_page "2024-01-01")))
     = ["Error: undefined"].
Proof.
  split.
  - apply (proj1 (answer_without_fields Z int_to_boolean int_to_string
                    (scenario true (answers (VArray []))) dashboard_page
                    {| json := Fulfilled (VArray []) |} (VArray []) eq_refl I)
             (VNumber 17%Z) "17" eq_refl eq_refl eq_refl).
  - apply (proj2 (answer_without_fields Z int_to_boolean int_to_string
                    (scenario true (answers (VObject [("ok", VBool true)])))
                    (notifications_page "2024-01-01")
                    {| json := Fulfilled (VObject [("ok", VBool true)]) |}
                    (VObject [("ok", VBool true)]) eq_refl (conj eq_refl eq_refl))
             submit "2024-01-01" (date_field_of_notifications_page "2024-01-01")).
    + discriminate.
    + reflexivity.
    + reflexivity.
Defined.

Lemma success_is_tested_for_truth_example :
  reloads_of Z (effects_of Z (cancelAppointmentZ (VNumber 17%Z)
                                (scenario true (answers (VObject [("success", VString "false")])))
                                dashboard_page))
  = 1
  /\ reloads_of Z (effects_of Z (deleteAppointmentsByDateZ submit
                                   (scenario true (answers (VObject [("success", VString "false")])))
                                   (notifications_page "2024-01-01")))
     = 1.
Proof.
  split.
  - apply (proj1 (proj2 (success_is_tested_for_truth Z int_to_boolean int_to_string
                           (scenario true (answers (VObject [("success", VString "false")])))
                           dashboard_page
                           {| json := Fulfilled (VObject [("success", VString "false")]) |}
                           (VObject [("success", VString "false")]) (VString "false")
                           eq_refl eq_refl))
             (VNumber 17%Z) "17" eq_refl eq_refl eq_refl).
  - apply (proj2 (proj2 (success_is_tested_for_truth Z int_to_boolean int_to_string
                           (scenario true (answers (VObject [("success", VString "false")])))
                           (notifications_page "2024-01-01")
                           {| json := Fulfilled (VObject [("success", VString "false")]) |}
                           (VObject [("success", VString "false")]) (VString "false")
                           eq_refl eq_refl))
             submit "2024-01-01" VUndefined "undefined" eq_refl eq_refl
             (date_field_of_notifications_page "2024-01-01")).
    + discriminate.
    + reflexivity.
    + reflexivity.
Defined.

Lemma reload_only_on_success_example :
  user_confirms Z (scenario true (answers ok_data))
    "Are you sure you want to cancel this appointment?" = true
  /\ exists id resp data success,
       to_string Z int_to_string (VNumber 17%Z) = Normal id
       /\ network Z (scenario true (answers ok_data)) ("/cancel_appointment/" +:+ id)
            {| init_method := "POST";
               init_headers := [("Content-Type", "application/json")];
               init_body := None |} = Fulfilled resp
       /\ json Z resp = Fulfilled data
       /\ get Z data "success" = Normal success
       /\ to_boolean Z int_to_boolean success = true.
Proof.
  apply (proj2 (proj1 (reload_only_on_success Z int_to_boolean int_to_string
                         (scenario true (answers ok_data)) dashboard_page)
                  (VNumber 17%Z))).
  reflexivity.
Defined.

Lemma no_request_without_consent_example :
  exists date,
    field_holds "deleteDate" (w_dom (notifications_page "2024-01-01")) date
    /\ date <> ""
    /\ user_confirms Z (scenario true offline)
         ("Are you sure you want to delete all appointments for " +:+ date +:+ "?")
       = true.
Proof.
  apply (proj2 (proj2 (no_request_without_consent Z int_to_boolean int_to_string
                         (scenario true offline) (notifications_page "2024-01-01"))
                  submit)).
  discriminate.
Defined.

Lemma one_alert_unless_declined_example :
  length (alerts_of Z (effects_of Z (cancelAppointmentZ (VNumber 17%Z)
                                       (scenario true not_json) dashboard_page))) = 1
  /\ length (alerts_of Z (effects_of Z (deleteAppointmentsByDateZ submit
                                          (scenario true not_json)
                                          (notifications_page "2024-01-01")))) <= 1.
Proof.
  split.
  - apply (proj1 (one_alert_unless_declined Z int_to_boolean int_to_string
                    (scenario true not_json) dashboard_page)
             (VNumber 17%Z) "17" eq_refl).
    intros [Hn | (resp & Hn & Hj)]; [discriminate Hn |].
    injection Hn as <-. discriminate Hj.
  - apply (proj2 (one_alert_unless_declined Z int_to_boolean int_to_string
                    (scenario true not_json) (notifications_page "2024-01-01"))
             submit).
    by exists 5.
Defined.

Lemma page_is_left_alone_example :
  page_of Z (cancelAppointmentZ (VNumber 17%Z) (scenario true offline)
               (notifications_page "2024-01-01"))
  = notifications_page "2024-01-01"
  /\ page_of Z (deleteAppointmentsByDateZ submit (scenario true offline) dashboard_page)
     = dashboard_page.
Proof.
  split.
  - apply (proj1 (page_is_left_alone Z int_to_boolean int_to_string
                    (scenario true offline) (notifications_page "2024-01-01"))
             (VNumber 17%Z)).
    reflexivity.
  - apply (proj1 (proj2 (page_is_left_alone Z int_to_boolean int_to_string
                           (scenario true offline) dashboard_page))
             submit).
    reflexivity.
Defined.

Lemma deleteAppointmentsByDate_without_value_example :
  exists t,
    deleteAppointmentsByDateZ submit (scenario true (answers ok_data)) mislabelled_page
    = (Normal tt, mislabelled_page, t)
    /\ alerts_of Z t = ["Please select a date"]
    /\ prompts_of Z t = []
    /\ requests_of Z t = []
    /\ reloads_of Z t = 0.
Proof.
  apply (deleteAppointmentsByDate_without_value Z int_to_boolean int_to_string
           (scenario true (answers ok_data)) mislabelled_page submit 0
           (Build_node "deleteDate" ["form-label"] None UnderDocument));
    reflexivity.
Defined.

Lemma autoDismissAlerts_without_alerts_example :
  autoDismissAlerts Z (scenario true offline) dashboard_page
  = (Normal tt, dashboard_page, []).
Proof.
  apply (autoDismissAlerts_without_alerts Z (scenario true offline) dashboard_page).
  reflexivity.
Defined.

Lemma autoDismissAlerts_twice_example :
  exists once twice,
    autoDismissAlerts Z (scenario true offline) (notifications_page "")
    = (Normal tt, once, [])
    /\ bind Z (autoDismissAlerts Z) (fun _ => autoDismissAlerts Z)
         (scenario true offline) (notifications_page "")
       = (Normal tt, twice, [])
    /\ exists w1 w2,
         event_loop Z 8 2000 (scenario true offline) once = Some (w1, [])
         /\ event_loop Z 8 2000 (scenario true offline) twice = Some (w2, [])
         /\ w_dom w2 = w_dom w1.
Proof.
  apply (autoDismissAlerts_twice Z (scenario true offline) (notifications_page "") 8 2000).
  - reflexivity.
  - vm_compute. lia.
Defined.

Lemma autoDismissAlerts_timers_drain_example :
  exists w0 w1,
    autoDismissAlerts Z (scenario true offline) (notifications_page "")
    = (Normal tt, w0, [])
    /\ event_loop Z 4 1700 (scenario true offline) w0 = Some (w1, [])
    /\ length (w_timers w1) <= 2.
Proof.
  destruct (autoDismissAlerts_timers_drain Z (scenario true offline) (notifications_page "")
              4 1700 eq_refl)
    as (w0 & w1 & Hrun & Hloop & Hlen & _).
  - vm_compute. lia.
  - exists w0, w1. split; [exact Hrun |]. split; [exact Hloop | exact Hlen].
Defined.

Lemma alert_content_is_dismissed_example :
  exists w0 w1,
    autoDismissAlerts Z (scenario true offline) (notifications_page "")
    = (Normal tt, w0, [])
    /\ event_loop Z 4 2000 (scenario true offline) w0 = Some (w1, [])
    /\ in_document (w_dom w1) 2 = false.
Proof.
  apply (alert_content_is_dismissed Z (scenario true offline) (notifications_page "")
           4 2000 1 2
           (Build_node "flash-error" ["alert"; "alert-danger"] None UnderDocument)).
  - reflexivity.
  - vm_compute. lia.
  - vm_compute. discriminate.
  - reflexivity.
  - reflexivity.
  - reflexivity.
  - apply (ancestor_parent _ 1 2 (Build_node "" ["btn-close"] None (ChildOf 1)));
      reflexivity.
Defined.

Lemma logged_error_means_generic_alert_example :
  length (requests_of Z (effects_of Z (cancelAppointmentZ (VNumber 17%Z)
                                         (scenario true offline) dashboard_page))) = 1
  /\ alerts_of Z (effects_of Z (cancelAppointmentZ (VNumber 17%Z)
                                  (scenario true offline) dashboard_page))
     = ["Error cancelling appointment"]
  /\ reloads_of Z (effects_of Z (cancelAppointmentZ (VNumber 17%Z)
                                   (scenario true offline) dashboard_page)) = 0.
Proof.
  apply (proj2 (proj1 (logged_error_means_generic_alert Z int_to_boolean int_to_string
                         (scenario true offline) dashboard_page)
                  (VNumber 17%Z))).
  discriminate.
Defined.

Lemma unprintable_message_is_caught_example :
  alerts_of Z (effects_of Z (deleteAppointmentsByDateZ submit
                               (scenario true
                                  (answers (VObject [("success", VBool true);
                                                     ("message", unprintable)])))
                               (notifications_page "2024-01-01")))
  = ["Error deleting appointments"]
  /\ reloads_of Z (effects_of Z (deleteAppointmentsByDateZ submit
                                   (scenario true
                                      (answers (VObject [("success", VBool true);
                                                         ("message", unprintable)])))
                                   (notifications_page "2024-01-01")))
     = 0.
Proof.
  destruct (proj2 (unprintable_message_is_caught Z int_to_boolean int_to_string
                     (scenario true (answers (VObject [("success", VBool true);
                                                       ("message", unprintable)])))
                     (notifications_page "2024-01-01")
                     {| json := Fulfilled (VObject [("success", VBool true);
                                                    ("message", unprintable)]) |}
                     (VObject [("success", VBool true); ("message", unprintable)])
                     (VBool true) unprintable
                     (TypeError "Cannot convert object to primitive value")
                     eq_refl eq_refl eq_refl eq_refl)
                submit "2024-01-01" (date_field_of_notifications_page "2024-01-01"))
    as (_ & _ & Halerts & Hreloads);
    [discriminate | reflexivity | reflexivity |].
  split; [exact Halerts | exact Hreloads].
Defined.
